(** * Session RPC server of lightning-terminal: a shallow embedding

    The development follows [session_rpcserver.go].  The RPC handlers
    ([AddSession], [RevokeSession]), the resume decision ([resumeSession]), the
    per-session watcher goroutine, the shutdown routine ([stop]) and the enum
    translations ([marshalRPCType], [unmarshalRPCType], [marshalRPCState]) are
    written as functions in a small state monad over a [World] that holds the
    session store, the mutable fields of the server ([quit], [wg], [stopOnce])
    and a chronological trace of the calls made to the collaborators. *)

From stdpp Require Import gmap strings list fin_maps pretty.
From Stdlib Require Import ZArith Lia.

Local Open Scope Z_scope.

(** ** Go's fixed-width integer conversions *)

Module goint.

(** [int64(x)] for an integer [x]: wrap-around into [-2^63, 2^63). *)
Definition to_int64 (x : Z) : Z := (x + 2 ^ 63) mod 2 ^ 64 - 2 ^ 63.

(** [uint64(x)]: wrap-around into [0, 2^64). *)
Definition to_uint64 (x : Z) : Z := x mod 2 ^ 64.

Definition is_uint64 (x : Z) : Prop := 0 <= x < 2 ^ 64.
Definition is_int64 (x : Z) : Prop := - 2 ^ 63 <= x < 2 ^ 63.

End goint.

(** ** The part of Go's [time] package the server uses

    A [Time] without monotonic reading is a count of seconds since
    January 1 of year 1 (an [int64]) and a nanosecond offset in [0, 1e9).
    The expiry of a session never carries a monotonic reading (it comes from
    [time.Unix] or from the store), so every comparison the server makes
    falls back to the wall clock, which is what [After] and [Before] compare. *)

Module time.

Record Time := mkTime { sec : Z; nsec : Z }.

(** Seconds between year 1 and the Unix epoch. *)
Definition unixToInternal : Z :=
  (1969 * 365 + 1969 / 4 - 1969 / 100 + 1969 / 400) * 86400.

Definition unixTime (s n : Z) : Time :=
  mkTime (goint.to_int64 (s + unixToInternal)) n.

(** [time.Unix(sec, nsec)], with its normalisation of [nsec]. *)
Definition Unix (s n : Z) : Time :=
  if (n <? 0) || (n >=? 1000000000) then
    let q := Z.quot n 1000000000 in
    let s1 := goint.to_int64 (s + q) in
    let n1 := n - q * 1000000000 in
    if n1 <? 0
    then unixTime (goint.to_int64 (s1 - 1)) (n1 + 1000000000)
    else unixTime s1 n1
  else unixTime s n.

(** [t.After(u)] *)
Definition After (t u : Time) : bool :=
  (sec t >? sec u) || ((sec t =? sec u) && (nsec t >? nsec u)).

(** [t.Before(u)] *)
Definition Before (t u : Time) : bool :=
  (sec t <? sec u) || ((sec t =? sec u) && (nsec t <? nsec u)).

(** [t.Unix()] *)
Definition Time_Unix (t : Time) : Z := goint.to_int64 (sec t - unixToInternal).

(** A well-formed time value, and its position on the line of nanoseconds. *)
Definition wf (t : Time) : Prop :=
  goint.is_int64 (sec t) /\ 0 <= nsec t < 1000000000.

Definition nanos (t : Time) : Z := sec t * 1000000000 + nsec t.


End time.

Abbreviation Time := time.Time.

(** ** Errors and results *)

Abbreviation error := string (only parsing).

Inductive result (A : Type) : Type :=
| Ok (a : A)
| Err (e : error).

Arguments Ok {A} a.
Arguments Err {A} e.

(** ** Enumerations declared outside this file

    [session.Type], [session.State] (both [uint8]) and the generated
    [litrpc.SessionType], [litrpc.SessionState] (both [int32]) are numeric
    types whose named constants other packages declare; so is the header name
    [HeaderMacaroon].  They are parameters of the development. *)

Class Enums := {
  TypeMacaroonReadonly : Z;
  TypeMacaroonAdmin : Z;
  TypeMacaroonCustom : Z;
  TypeUIPassword : Z;
  StateCreated : Z;
  StateInUse : Z;
  StateRevoked : Z;
  StateExpired : Z;
  SessionType_TYPE_MACAROON_READONLY : Z;
  SessionType_TYPE_MACAROON_ADMIN : Z;
  SessionType_TYPE_MACAROON_CUSTOM : Z;
  SessionType_TYPE_UI_PASSWORD : Z;
  SessionState_STATE_CREATED : Z;
  SessionState_STATE_IN_USE : Z;
  SessionState_STATE_REVOKED : Z;
  SessionState_STATE_EXPIRED : Z;
  HeaderMacaroon : string
}.

(** ** Data model *)

(** A public key stands for its 33-byte compressed serialisation, read as a
    number; the store is keyed by it. *)
Abbreviation PubKey := Z (only parsing).

(** [session.Session] *)
Record Session := mkSession {
  Label : string;
  State : Z;
  Type' : Z;
  Expiry : Time;
  ServerAddr : string;
  DevServer : bool;
  MacaroonRootKey : Z;
  PairingSecret : list Z;
  LocalPublicKey : PubKey;
  RemotePublicKey : option PubKey
}.

Definition withState (st : Z) (sess : Session) : Session :=
  mkSession (Label sess) st (Type' sess) (Expiry sess) (ServerAddr sess)
    (DevServer sess) (MacaroonRootKey sess) (PairingSecret sess)
    (LocalPublicKey sess) (RemotePublicKey sess).

(** [litrpc.AddSessionRequest] *)
Record AddSessionRequest := mkAddSessionRequest {
  req_Label : string;
  req_SessionType : Z;
  req_ExpiryTimestampSeconds : Z;
  req_MailboxServerAddr : string;
  req_DevServer : bool
}.

(** [litrpc.RevokeSessionRequest] *)
Record RevokeSessionRequest := mkRevokeSessionRequest {
  req_LocalPublicKey : list Z
}.

(** [litrpc.Session] *)
Record rpcSession := mkRpcSession {
  rpc_Label : string;
  rpc_SessionState : Z;
  rpc_SessionType : Z;
  rpc_ExpiryTimestampSeconds : Z;
  rpc_MailboxServerAddr : string;
  rpc_DevServer : bool;
  rpc_PairingSecret : list Z;
  rpc_PairingSecretMnemonic : string;
  rpc_LocalPublicKey : list Z;
  rpc_RemotePublicKey : list Z
}.

(** [litrpc.AddSessionResponse] *)
Record AddSessionResponse := mkAddSessionResponse {
  resp_Session : rpcSession
}.

(** [litrpc.RevokeSessionResponse] *)
Inductive RevokeSessionResponse : Type :=
| mkRevokeSessionResponse.

(** A permission: an entity and an action ([bakery.Op]). *)
Abbreviation Op := (string * string)%type (only parsing).

(** ** The world the server runs in *)

(** The three cases of the watcher's [select]. *)
Inductive Trigger : Type :=
| OnQuit
| OnSessionClosed
| OnTicker.

(** A watcher goroutine blocked in its [select]: the session it captured and
    the channel [sessionClosedSub] that [StartSession] returned. *)
Record Watcher := mkWatcher {
  w_sess : Session;
  w_closedSub : nat
}.

#[export] Instance Time_eq_dec : EqDecision Time.
Proof. solve_decision. Defined.

#[export] Instance Session_eq_dec : EqDecision Session.
Proof. solve_decision. Defined.

#[export] Instance Watcher_eq_dec : EqDecision Watcher.
Proof. solve_decision. Defined.

(** What the server does to its collaborators and to its own primitives. *)
Inductive Event : Type :=
| EvLog (format : string)
| EvStoreSession (sess : Session)
| EvRevokeSession (key : PubKey)
| EvBake (rootKeyID : Z) (perms : list Op)
| EvStartSession (sess : Session) (authData : string)
| EvStopSession (key : PubKey)
| EvGo (wt : Watcher)
| EvWgDone (wt : Watcher)
| EvCloseQuit
| EvWgWait.

Record World := mkWorld {
  store : gmap Z Session;    (* the contents of the session store [s.db] *)
  trace : list Event;        (* oldest event first *)
  ticks : nat;               (* how many times [time.Now()] was read *)
  quit_closed : bool;        (* whether the channel [s.quit] is closed *)
  stopOnce_done : bool;      (* whether [s.stopOnce] has run *)
  watchers : list Watcher    (* the goroutines registered in [s.wg] *)
}.

Inductive DbOp : Type :=
| OpStoreSession (sess : Session)
| OpRevokeSession (key : PubKey).

(** The immutable fields of [sessionRpcServer] and the behaviour of everything
    the file calls but does not define.  Each collaborator answers as a
    function of the whole world, its history included, so that any sequence of
    successes and failures can be played. *)
Record Env := mkEnv {
  basicAuth : string;
  superMacBaker : World -> Z -> list Op -> result string;
  clock : nat -> Time;
  db_fault : World -> DbOp -> option error;
  StartSession_result : World -> Session -> string -> result nat;
  StopSession_result : World -> PubKey -> option error;
  selected : World -> Watcher -> Trigger;
  GetAllPermissions : bool -> list Op;
  ParsePubKey : list Z -> result PubKey;
  SerializeCompressed : PubKey -> list Z;
  PassphraseEntropyToMnemonic : list Z -> result (list string);
  session_entropy : World -> result (list Z * PubKey * Z)
}.

(** ** A state monad with panics *)

Inductive Outcome (A : Type) : Type :=
| Done (a : A) (w : World)
| Panic (msg : string) (w : World).

Arguments Done {A} a w.
Arguments Panic {A} msg w.

Definition M (A : Type) : Type := World -> Outcome A.

Definition ret {A : Type} (a : A) : M A := fun w => Done a w.

Definition bind {A B : Type} (c : M A) (k : A -> M B) : M B :=
  fun w =>
    match c w with
    | Done a w' => k a w'
    | Panic msg w' => Panic msg w'
    end.

Declare Scope go_scope.
Delimit Scope go_scope with go.

Notation "'let*' x ':=' c 'in' k" := (bind c (fun x => k))
  (at level 10, x name, c at level 100, k at level 200) : go_scope.

Notation "c ';;' k" := (bind c (fun _ => k))
  (at level 100, k at level 200, right associativity) : go_scope.

Definition panic {A : Type} (msg : string) : M A := fun w => Panic msg w.

Definition set_store (m : gmap Z Session) (w : World) : World :=
  mkWorld m (trace w) (ticks w) (quit_closed w) (stopOnce_done w) (watchers w).

Definition set_trace (tr : list Event) (w : World) : World :=
  mkWorld (store w) tr (ticks w) (quit_closed w) (stopOnce_done w) (watchers w).

Definition set_ticks (n : nat) (w : World) : World :=
  mkWorld (store w) (trace w) n (quit_closed w) (stopOnce_done w) (watchers w).

Definition set_quit_closed (b : bool) (w : World) : World :=
  mkWorld (store w) (trace w) (ticks w) b (stopOnce_done w) (watchers w).

Definition set_stopOnce_done (b : bool) (w : World) : World :=
  mkWorld (store w) (trace w) (ticks w) (quit_closed w) b (watchers w).

Definition set_watchers (ws : list Watcher) (w : World) : World :=
  mkWorld (store w) (trace w) (ticks w) (quit_closed w) (stopOnce_done w) ws.

Definition record (e : Event) (w : World) : World :=
  set_trace (trace w ++ [e]) w.

Definition emit (e : Event) : M unit := fun w => Done tt (record e w).

(** [log.Debugf]: the line is kept by its format string. *)
Definition log_Debugf (format : string) : M unit := emit (EvLog format).

(** Which events are calls to a collaborator (store, tunnel, baker). *)
Definition is_call (e : Event) : bool :=
  match e with
  | EvStoreSession _ | EvRevokeSession _ | EvBake _ _
  | EvStartSession _ _ | EvStopSession _ => true
  | _ => false
  end.

Definition calls (tr : list Event) : list Event := List.filter is_call tr.

Definition is_store_write (e : Event) : bool :=
  match e with
  | EvStoreSession _ | EvRevokeSession _ => true
  | _ => false
  end.

(** ** The server *)

Section Server.

Context `{Enums}.
Variable s : Env.

Local Open Scope go_scope.

(** [time.Now()]: the next reading of the clock. *)
Definition time_Now : M Time :=
  fun w => Done (clock s (ticks w)) (set_ticks (S (ticks w)) w).

(** *** The collaborators *)

(** Modelled from the spec: [session.DB.RevokeSession], whose code lives in
    package [session].  It returns success or a storage failure; on success the
    record stored under the key is in state Revoked, and a key the store does
    not know is a storage failure. *)
Definition db_RevokeSession (key : PubKey) : M (option error) :=
  emit (EvRevokeSession key) ;;
  fun w =>
    match db_fault s w (OpRevokeSession key) with
    | Some e => Done (Some e) w
    | None =>
        match store w !! key with
        | None => Done (Some "session not found"%string) w
        | Some sess =>
            Done None (set_store (<[key := withState StateRevoked sess]> (store w)) w)
        end
    end.

(** Modelled from the spec: [session.DB.StoreSession], whose code lives in
    package [session].  It returns success or a storage failure; on success the
    record is stored under its local key. *)
Definition db_StoreSession (sess : Session) : M (option error) :=
  emit (EvStoreSession sess) ;;
  fun w =>
    match db_fault s w (OpStoreSession sess) with
    | Some e => Done (Some e) w
    | None => Done None (set_store (<[LocalPublicKey sess := sess]> (store w)) w)
    end.

(** Modelled from the spec: [session.NewSession], whose code lives in
    package [session].  The factory generates the pairing secret, the local key and the
    root key ID, and the new session is in state Created with no remote key. *)
Definition session_NewSession (label : string) (typ : Z) (expiry : Time)
    (serverAddr : string) (devServer : bool) : M (result Session) :=
  fun w =>
    match session_entropy s w with
    | Err e => Done (Err e) w
    | Ok (secret, key, rootKey) =>
        Done (Ok (mkSession label StateCreated typ expiry serverAddr devServer
                    rootKey secret key None)) w
    end.

(** [s.sessionServer.StartSession(sess, authData, s.db.StoreSession)] *)
Definition sessionServer_StartSession (sess : Session) (authData : string)
  : M (result nat) :=
  emit (EvStartSession sess authData) ;;
  fun w => Done (StartSession_result s w sess authData) w.

(** [s.sessionServer.StopSession(pubKey)] *)
Definition sessionServer_StopSession (key : PubKey) : M (option error) :=
  emit (EvStopSession key) ;;
  fun w => Done (StopSession_result s w key) w.

(** [s.superMacBaker(ctx, rootKeyID, &session.MacaroonRecipe{Permissions: perms})] *)
Definition call_superMacBaker (rootKeyID : Z) (perms : list Op)
  : M (result string) :=
  emit (EvBake rootKeyID perms) ;;
  fun w => Done (superMacBaker s w rootKeyID perms) w.

(** *** Enum translation *)

(** [marshalRPCState] *)
Definition marshalRPCState (state : Z) : result Z :=
  if state =? StateCreated then Ok SessionState_STATE_CREATED
  else if state =? StateInUse then Ok SessionState_STATE_IN_USE
  else if state =? StateRevoked then Ok SessionState_STATE_REVOKED
  else if state =? StateExpired then Ok SessionState_STATE_EXPIRED
  else Err ("unknown state <" +:+ pretty state +:+ ">").

(** [marshalRPCType] *)
Definition marshalRPCType (typ : Z) : result Z :=
  if typ =? TypeMacaroonReadonly then Ok SessionType_TYPE_MACAROON_READONLY
  else if typ =? TypeMacaroonAdmin then Ok SessionType_TYPE_MACAROON_ADMIN
  else if typ =? TypeMacaroonCustom then Ok SessionType_TYPE_MACAROON_CUSTOM
  else if typ =? TypeUIPassword then Ok SessionType_TYPE_UI_PASSWORD
  else Err ("unknown type <" +:+ pretty typ +:+ ">").

(** [unmarshalRPCType] *)
Definition unmarshalRPCType (typ : Z) : result Z :=
  if typ =? SessionType_TYPE_MACAROON_READONLY then Ok TypeMacaroonReadonly
  else if typ =? SessionType_TYPE_MACAROON_ADMIN then Ok TypeMacaroonAdmin
  else if typ =? SessionType_TYPE_MACAROON_CUSTOM then Ok TypeMacaroonCustom
  else if typ =? SessionType_TYPE_UI_PASSWORD then Ok TypeUIPassword
  else Err ("unknown type <" +:+ pretty typ +:+ ">").

(** [strings.Join(words, sep)] *)
Fixpoint strings_Join (words : list string) (sep : string) : string :=
  match words with
  | [] => ""
  | [x] => x
  | x :: rest => x +:+ sep +:+ strings_Join rest sep
  end.

(** [marshalRPCSession] *)
Definition marshalRPCSession (sess : Session) : result rpcSession :=
  match marshalRPCState (State sess) with
  | Err e => Err e
  | Ok rpcState =>
      match marshalRPCType (Type' sess) with
      | Err e => Err e
      | Ok rpcType =>
          let remotePubKey :=
            match RemotePublicKey sess with
            | Some k => SerializeCompressed s k
            | None => []
            end in
          match PassphraseEntropyToMnemonic s (PairingSecret sess) with
          | Err e => Err e
          | Ok mnemonic =>
              Ok (mkRpcSession (Label sess) rpcState rpcType
                    (goint.to_uint64 (time.Time_Unix (Expiry sess)))
                    (ServerAddr sess) (DevServer sess) (PairingSecret sess)
                    (strings_Join mnemonic " ")
                    (SerializeCompressed s (LocalPublicKey sess))
                    remotePubKey)
          end
      end
  end.

(** *** The watcher goroutine and the wait group *)

(** Dropping one registration of a goroutine from the wait group. *)
Fixpoint remove_first (wt : Watcher) (ws : list Watcher) : list Watcher :=
  match ws with
  | [] => []
  | x :: rest => if decide (x = wt) then rest else x :: remove_first wt rest
  end.

(** [s.wg.Add(1)] followed by the [go] statement. *)
Definition go_watcher (wt : Watcher) : M unit :=
  emit (EvGo wt) ;;
  fun w => Done tt (set_watchers (watchers w ++ [wt]) w).

(** [s.wg.Done()], deferred by the goroutine. *)
Definition wg_Done (wt : Watcher) : M unit :=
  emit (EvWgDone wt) ;;
  fun w => Done tt (set_watchers (remove_first wt (watchers w)) w).

(** The goroutine started by [resumeSession], from the moment its [select]
    takes the case [trig].  The timer it creates with
    [time.NewTimer(time.Until(sess.Expiry))] decides when the case [OnTicker]
    can be taken; stopping that timer on exit touches nothing shared. *)
Definition watcher (wt : Watcher) (trig : Trigger) : M unit :=
  let pubKey := LocalPublicKey (w_sess wt) in
  match trig with
  | OnQuit => ret tt
  | OnSessionClosed => ret tt
  | OnTicker =>
      log_Debugf "Stopping expired session %x with type %d" ;;
      let* err := sessionServer_StopSession pubKey in
      match err with
      | Some _ => log_Debugf "Error stopping session: %v"
      | None => ret tt
      end ;;
      let* err := db_RevokeSession pubKey in
      match err with
      | Some _ => log_Debugf "error revoking session: %v"
      | None => ret tt
      end
  end ;;
  wg_Done wt.

(** Running the registered goroutines to their end, each on the case the
    scheduler picks for it. *)
Fixpoint drain (ws : list Watcher) : M unit :=
  match ws with
  | [] => ret tt
  | wt :: rest =>
      (fun w => watcher wt (selected s w wt) w) ;;
      drain rest
  end.

(** [s.wg.Wait()]: returns once every registered goroutine has exited. *)
Definition wg_Wait : M unit :=
  emit EvWgWait ;;
  fun w => drain (watchers w) w.

(** [close(s.quit)]: closing a closed channel panics. *)
Definition close_quit : M unit :=
  fun w =>
    if quit_closed w then Panic "close of closed channel" w
    else Done tt (set_quit_closed true (record EvCloseQuit w)).

(** [s.stopOnce.Do(f)] *)
Definition stopOnce_Do (f : M unit) : M unit :=
  fun w =>
    if stopOnce_done w then Done tt w
    else
      match f w with
      | Done _ w' => Done tt (set_stopOnce_done true w')
      | Panic msg w' => Panic msg (set_stopOnce_done true w')
      end.

(** [stop] *)
Definition stop : M unit :=
  stopOnce_Do (close_quit ;; wg_Wait).

(** [n] successive calls of [stop]. *)
Fixpoint stop_times (n : nat) : M unit :=
  match n with
  | O => ret tt
  | S n' => stop ;; stop_times n'
  end.

(** *** Resume, add, revoke *)

(** [resumeSession].  The local [start] is the end of the function, from the
    call of [StartSession] on, which the cases of the type [switch] reach
    with the [authData] they built. *)
Definition resumeSession (sess : Session) : M (option error) :=
  let pubKey := LocalPublicKey sess in
  let start (authData : string) : M (option error) :=
    let* r := sessionServer_StartSession sess authData in
    match r with
    | Err e => ret (Some e)
    | Ok sessionClosedSub =>
        go_watcher (mkWatcher sess sessionClosedSub) ;;
        ret None
    end in
  if negb (State sess =? StateInUse) && negb (State sess =? StateCreated) then
    log_Debugf "Not resuming session %x with state %d" ;;
    ret None
  else
    let* now := time_Now in
    if time.Before (Expiry sess) now then
      log_Debugf "Not resuming session %x with expiry %s" ;;
      let* err := db_RevokeSession pubKey in
      match err with
      | Some e => ret (Some ("error revoking session: " +:+ e))
      | None => ret None
      end
    else if Type' sess =? TypeUIPassword then
      start ("Authorization: Basic " +:+ basicAuth s)
    else if (Type' sess =? TypeMacaroonAdmin)
            || (Type' sess =? TypeMacaroonReadonly) then
      let readOnly := Type' sess =? TypeMacaroonReadonly in
      let* r := call_superMacBaker (MacaroonRootKey sess)
                  (GetAllPermissions s readOnly) in
      match r with
      | Err _ =>
          log_Debugf "Not resuming session %x. Could not bakethe necessary macaroon: %w" ;;
          ret None
      | Ok mac => start (HeaderMacaroon +:+ ": " +:+ mac)
      end
    else
      log_Debugf "Not resuming session %x with type %d" ;;
      ret None.

(** [AddSession] *)
Definition AddSession (req : AddSessionRequest) : M (result AddSessionResponse) :=
  let expiry := time.Unix (goint.to_int64 (req_ExpiryTimestampSeconds req)) 0 in
  let* now := time_Now in
  if time.After now expiry then
    ret (Err "expiry must be in the future")
  else
    match unmarshalRPCType (req_SessionType req) with
    | Err e => ret (Err e)
    | Ok typ =>
        if negb (typ =? TypeUIPassword) && negb (typ =? TypeMacaroonAdmin)
           && negb (typ =? TypeMacaroonReadonly) then
          ret (Err ("invalid session type, only UI password, admin and "
                    +:+ "readonly macaroon types supported in LiT"))
        else
          let* r := session_NewSession (req_Label req) typ expiry
                      (req_MailboxServerAddr req) (req_DevServer req) in
          match r with
          | Err e => ret (Err ("error creating new session: " +:+ e))
          | Ok sess =>
              let* err := db_StoreSession sess in
              match err with
              | Some e => ret (Err ("error storing session: " +:+ e))
              | None =>
                  let* err := resumeSession sess in
                  match err with
                  | Some e => ret (Err ("error starting session: " +:+ e))
                  | None =>
                      match marshalRPCSession sess with
                      | Err e => ret (Err ("error marshaling session: " +:+ e))
                      | Ok rpcSess => ret (Ok (mkAddSessionResponse rpcSess))
                      end
                  end
              end
          end
    end.

(** [RevokeSession] *)
Definition RevokeSession (req : RevokeSessionRequest)
  : M (result RevokeSessionResponse) :=
  match ParsePubKey s (req_LocalPublicKey req) with
  | Err e => ret (Err ("error parsing public key: " +:+ e))
  | Ok pubKey =>
      let* err := db_RevokeSession pubKey in
      match err with
      | Some e => ret (Err ("error revoking session: " +:+ e))
      | None =>
          let* err := sessionServer_StopSession pubKey in
          match err with
          | Some _ => log_Debugf "Error stopping session: %v"
          | None => ret tt
          end ;;
          ret (Ok mkRevokeSessionResponse)
      end
  end.

End Server.

(** ** Vocabulary of the properties *)

Section Vocabulary.

Context `{Enums}.

(** The named constants of the two type enumerations, in the order of the
    [switch] cases.  In any build they are pairwise different: a Go [switch]
    with two equal constant cases does not compile. *)
Definition session_types : list Z :=
  [TypeMacaroonReadonly; TypeMacaroonAdmin; TypeMacaroonCustom; TypeUIPassword].

Definition rpc_types : list Z :=
  [SessionType_TYPE_MACAROON_READONLY; SessionType_TYPE_MACAROON_ADMIN;
   SessionType_TYPE_MACAROON_CUSTOM; SessionType_TYPE_UI_PASSWORD].

(** The session passes the first two gates of [resumeSession] when the clock
    reads [now]: its state is Created or InUse and it is not expired. *)
Definition reaches_credentials (sess : Session) (now : Time) : Prop :=
  (State sess = StateCreated \/ State sess = StateInUse)
  /\ time.Before (Expiry sess) now = false.

(** The calls a server receives during its life, and the steps its watchers
    take. *)
Inductive Call : Type :=
| CallAddSession (req : AddSessionRequest)
| CallResumeSession (sess : Session)
| CallRevokeSession (req : RevokeSessionRequest)
| CallStop
| WatcherStep (wt : Watcher) (trig : Trigger).

Variable s : Env.

Definition perform (c : Call) : M unit :=
  match c with
  | CallAddSession req => bind (AddSession s req) (fun _ => ret tt)
  | CallResumeSession sess => bind (resumeSession s sess) (fun _ => ret tt)
  | CallRevokeSession req => bind (RevokeSession s req) (fun _ => ret tt)
  | CallStop => stop s
  | WatcherStep wt trig => watcher s wt trig
  end.

Fixpoint perform_all (cs : list Call) : M unit :=
  match cs with
  | [] => ret tt
  | c :: rest => bind (perform c) (fun _ => perform_all rest)
  end.

End Vocabulary.

(** The quit channel is open unless [stop] already ran. *)
Definition gate_inv (w : World) : Prop :=
  stopOnce_done w = false -> quit_closed w = false.

(** A computation that always returns and touches neither the quit channel
    nor the once gate. *)
Definition keeps_gate {A : Type} (c : M A) : Prop :=
  forall w, exists a w',
    c w = Done a w'
    /\ quit_closed w' = quit_closed w
    /\ stopOnce_done w' = stopOnce_done w.

(** The world after [time.Now()] was read once. *)
Definition ticked (w : World) : World := set_ticks (S (ticks w)) w.

(** The world after a watcher deregistered from the wait group and exited. *)
Definition exited (wt : Watcher) (w : World) : World :=
  set_watchers (remove_first wt (watchers w)) (record (EvWgDone wt) w).

Definition is_close (e : Event) : bool :=
  match e with EvCloseQuit => true | _ => false end.

Definition is_wait (e : Event) : bool :=
  match e with EvWgWait => true | _ => false end.

Definition count (p : Event -> bool) (evs : list Event) : nat :=
  length (List.filter p evs).

(** Deregistering a list of goroutines, one after the other. *)
Definition remove_all (ws l : list Watcher) : list Watcher :=
  fold_left (fun acc wt => remove_first wt acc) ws l.

(** What a run of watchers leaves alone: the quit channel, the once gate, and
    the trace up to events that are neither a close nor a wait. *)
Definition untouched_by_watchers (w w' : World) : Prop :=
  quit_closed w' = quit_closed w
  /\ stopOnce_done w' = stopOnce_done w
  /\ exists evs, trace w' = trace w ++ evs
       /\ count is_close evs = 0%nat /\ count is_wait evs = 0%nat.

(** The value and the final world of a run. *)
Definition outcome_value {A : Type} (o : Outcome A) : option A :=
  match o with
  | Done a _ => Some a
  | Panic _ _ => None
  end.

Definition outcome_world {A : Type} (o : Outcome A) : World :=
  match o with
  | Done _ w => w
  | Panic _ w => w
  end.

Definition is_ok {A : Type} (r : result A) : bool :=
  match r with
  | Ok _ => true
  | Err _ => false
  end.

(** ** Concrete data, used to run the definitions *)

Module sample.

(** The constants numbered 0 to 3 in the order of their declaration. *)
Definition enums : Enums := {|
  TypeMacaroonReadonly := 0;
  TypeMacaroonAdmin := 1;
  TypeMacaroonCustom := 2;
  TypeUIPassword := 3;
  StateCreated := 0;
  StateInUse := 1;
  StateRevoked := 2;
  StateExpired := 3;
  SessionType_TYPE_MACAROON_READONLY := 0;
  SessionType_TYPE_MACAROON_ADMIN := 1;
  SessionType_TYPE_MACAROON_CUSTOM := 2;
  SessionType_TYPE_UI_PASSWORD := 3;
  SessionState_STATE_CREATED := 0;
  SessionState_STATE_IN_USE := 1;
  SessionState_STATE_REVOKED := 2;
  SessionState_STATE_EXPIRED := 3;
  HeaderMacaroon := "Macaroon"
|}.

(** 2023-11-14 22:13:20 UTC, as Unix seconds. *)
Definition t0 : Z := 1700000000.

(** A clock whose [n]-th reading is [n] nanoseconds after [t0]. *)
Definition ticking (n : nat) : Time :=
  time.mkTime (t0 + time.unixToInternal) (Z.of_nat n).

(** Collaborators that always succeed. *)
Definition env_ok : Env := {|
  basicAuth := "dXNlcjpwYXNz";
  superMacBaker := fun _ _ _ => Ok "0201036c6e64"%string;
  clock := ticking;
  db_fault := fun _ _ => None;
  StartSession_result := fun w _ _ => Ok (length (trace w));
  StopSession_result := fun _ _ => None;
  selected := fun _ _ => OnQuit;
  GetAllPermissions := fun readOnly =>
    if readOnly then [("info", "read")%string]
    else [("info", "read")%string; ("info", "write")%string];
  ParsePubKey := fun bytes =>
    match bytes with
    | [] => Err "malformed public key: invalid length: 0"%string
    | b :: _ => Ok b
    end;
  SerializeCompressed := fun key => [key];
  PassphraseEntropyToMnemonic := fun _ => Ok ["abandon"; "ability"]%string;
  session_entropy := fun w => Ok ([7; 7], 1000 + Z.of_nat (length (trace w)), 42)
|}.

(** Collaborators that always fail, with a scheduler that lets timers fire. *)
Definition env_failing : Env := {|
  basicAuth := "dXNlcjpwYXNz";
  superMacBaker := fun _ _ _ => Err "macaroon service not yet ready"%string;
  clock := ticking;
  db_fault := fun _ _ => Some "database not open"%string;
  StartSession_result := fun _ _ _ => Err "session already running"%string;
  StopSession_result := fun _ _ => Some "session has not been started"%string;
  selected := fun _ _ => OnTicker;
  GetAllPermissions := GetAllPermissions env_ok;
  ParsePubKey := ParsePubKey env_ok;
  SerializeCompressed := SerializeCompressed env_ok;
  PassphraseEntropyToMnemonic := PassphraseEntropyToMnemonic env_ok;
  session_entropy := fun _ => Err "entropy source exhausted"%string
|}.

(** A stored session with the given state, type and expiry (Unix seconds). *)
Definition session (key state typ expiry : Z) : Session :=
  mkSession "laptop" state typ (time.Unix expiry 0) "mailbox.terminal.lightning.today:443"
    false 42 [7; 7] key None.

(** A freshly started server over the given store contents. *)
Definition world (sessions : list Session) : World :=
  mkWorld (list_to_map (List.map (fun x => (LocalPublicKey x, x)) sessions))
    [] 0 false false [].

Definition request (typ expiry : Z) : AddSessionRequest :=
  mkAddSessionRequest "laptop" typ expiry "mailbox.terminal.lightning.today:443" false.

(** Sessions under key 5; the clock of [env_ok] first reads [t0] sharp. *)
Definition revoked_session : Session := session 5 2 3 (t0 + 3600).
Definition expired_session : Session := session 5 0 3 (t0 - 10).
Definition expiring_now : Session := session 5 0 3 t0.
Definition custom_session : Session := session 5 0 2 (t0 + 3600).
Definition admin_session : Session := session 5 0 1 (t0 + 3600).
Definition password_session : Session := session 5 0 3 (t0 + 3600).

(** A server that already watches one session. *)
Definition watching : World :=
  mkWorld (list_to_map [(5, password_session)])
    [EvStartSession password_session "Authorization: Basic dXNlcjpwYXNz";
     EvGo (mkWatcher password_session 1)]
    1 false false [mkWatcher password_session 1].

End sample.

(** ** Listing the sessions *)

(** [litrpc.ListSessionsResponse]: a slice of pointers, [None] for [nil]. *)
Record ListSessionsResponse := mkListSessionsResponse {
  resp_Sessions : list (option rpcSession)
}.

Section Listing.

Context `{Enums}.
Variable s : Env.

(** Whether the store refuses to list, as a function of the world. *)
Variable ListSessions_fault : World -> option error.

(** Modelled from the spec: [session.DB.ListSessions], whose code lives in
    package [session].  It returns the stored sessions as an ordered
    sequence, or a storage failure; it reads the store and changes nothing. *)
Definition db_ListSessions : M (result (list Session)) :=
  fun w =>
    match ListSessions_fault w with
    | Some e => Done (Err e) w
    | None => Done (Ok ((map_to_list (store w)).*2)) w
    end.

(** The [for idx, sess := range sessions] loop of [ListSessions], entered at
    index [idx] with the slice [out] filled so far. *)
Fixpoint marshal_range (idx : nat) (sessions : list Session)
    (out : list (option rpcSession)) : result (list (option rpcSession)) :=
  match sessions with
  | [] => Ok out
  | sess :: rest =>
      match marshalRPCSession s sess with
      | Err e => Err ("error marshaling session: " +:+ e)
      | Ok rpcSess => marshal_range (S idx) rest (<[idx := Some rpcSess]> out)
      end
  end.

(** [ListSessions] *)
Definition ListSessions : M (result ListSessionsResponse) :=
  bind db_ListSessions (fun r =>
    match r with
    | Err e => ret (Err ("error fetching sessions: " +:+ e))
    | Ok sessions =>
        match marshal_range 0 sessions (replicate (length sessions) None) with
        | Err e => ret (Err e)
        | Ok out => ret (Ok (mkListSessionsResponse out))
        end
    end).

End Listing.

(** ** More vocabulary *)

Section MoreVocabulary.

Context `{Enums}.

(** The named constants of the two state enumerations, in the order of the
    [switch] cases of [marshalRPCState]. *)
Definition session_states : list Z :=
  [StateCreated; StateInUse; StateRevoked; StateExpired].

Definition rpc_states : list Z :=
  [SessionState_STATE_CREATED; SessionState_STATE_IN_USE;
   SessionState_STATE_REVOKED; SessionState_STATE_EXPIRED].

(** The three session types [AddSession] accepts, on the wire. *)
Definition lit_rpc_types : list Z :=
  [SessionType_TYPE_UI_PASSWORD; SessionType_TYPE_MACAROON_ADMIN;
   SessionType_TYPE_MACAROON_READONLY].

(** The session [AddSession] builds for a request, from what the session
    factory generated. *)
Definition new_session (req : AddSessionRequest) (typ : Z)
    (secret : list Z) (key rootKey : Z) : Session :=
  mkSession (req_Label req) StateCreated typ
    (time.Unix (goint.to_int64 (req_ExpiryTimestampSeconds req)) 0)
    (req_MailboxServerAddr req) (req_DevServer req) rootKey secret key None.

End MoreVocabulary.

Definition is_start (e : Event) : bool :=
  match e with EvStartSession _ _ => true | _ => false end.

Definition is_go (e : Event) : bool :=
  match e with EvGo _ => true | _ => false end.

Definition is_stop (e : Event) : bool :=
  match e with EvStopSession _ => true | _ => false end.

Definition is_store_session (e : Event) : bool :=
  match e with EvStoreSession _ => true | _ => false end.

(** Concrete worlds for the listing. *)
Module scenario.

(** A store that holds a password session and an admin session. *)
Definition two_sessions : World :=
  sample.world [sample.session 5 0 3 (sample.t0 + 3600);
                sample.session 6 1 1 (sample.t0 + 7200)].

(** A store in which one record carries state 9, which no constant names. *)
Definition corrupted : World :=
  sample.world [sample.session 5 0 3 (sample.t0 + 3600);
                sample.session 6 9 1 (sample.t0 + 7200)].

Definition never_fails : World -> option string := fun _ => None.

Definition always_fails : World -> option string :=
  fun _ => Some "database not open"%string.

(** The translation of [sample.password_session]. *)
Definition password_on_wire : rpcSession :=
  mkRpcSession "laptop" 0 3 (sample.t0 + 3600)
    "mailbox.terminal.lightning.today:443" false [7; 7] "abandon ability"
    [5] [].

(** A request for an admin session that expires 100 seconds after the first
    clock reading, what [AddSession] answers to it on a new server with
    collaborators that succeed, and the world it leaves. *)
Definition admin_request : AddSessionRequest :=
  sample.request 1 (sample.t0 + 100).

Definition admin_response : AddSessionResponse :=
  mkAddSessionResponse
    (mkRpcSession "laptop" 0 1 (sample.t0 + 100)
       "mailbox.terminal.lightning.today:443" false [7; 7] "abandon ability"
       [1000] []).

Definition after_admin_request : World :=
  outcome_world
    (@AddSession sample.enums sample.env_ok admin_request (sample.world [])).

(** A request for a password session with the same expiry. *)
Definition password_request : AddSessionRequest :=
  sample.request 3 (sample.t0 + 100).

(** A life of a server: a session is added, the server is stopped twice,
    and the session is revoked after that. *)
Definition life : list Call :=
  [CallAddSession password_request; CallStop; CallStop;
   CallRevokeSession (mkRevokeSessionRequest [1000])].

End scenario.

(** ** Facts about integers and times *)

Lemma to_int64_id (x : Z) : goint.is_int64 x -> goint.to_int64 x = x.
Proof.
  unfold goint.is_int64, goint.to_int64. intros Hx.
  rewrite Z.mod_small by lia. lia.
Qed.

Lemma to_int64_high (x : Z) :
  2 ^ 63 <= x < 2 ^ 64 -> goint.to_int64 x = x - 2 ^ 64.
Proof.
  unfold goint.to_int64. intros Hx.
  replace (x + 2 ^ 63) with (x + 2 ^ 63 - 2 ^ 64 + 1 * 2 ^ 64) by lia.
  rewrite Z_mod_plus_full, Z.mod_small by lia. lia.
Qed.

Lemma Before_nanos (a b : Time) :
  time.wf a -> time.wf b ->
  time.Before a b = true <-> time.nanos a < time.nanos b.
Proof.
  unfold time.wf, time.Before, time.nanos. intros [_ Ha] [_ Hb].
  rewrite orb_true_iff, andb_true_iff, !Z.ltb_lt, Z.eqb_eq. nia.
Qed.

Lemma After_nanos (a b : Time) :
  time.wf a -> time.wf b ->
  time.After a b = true <-> time.nanos b < time.nanos a.
Proof.
  unfold time.wf, time.After, time.nanos. intros [_ Ha] [_ Hb].
  rewrite orb_true_iff, andb_true_iff, !Z.gtb_ltb, !Z.ltb_lt, Z.eqb_eq. nia.
Qed.

Lemma Unix_whole_seconds (x : Z) :
  time.Unix x 0 = time.mkTime (goint.to_int64 (x + time.unixToInternal)) 0.
Proof. reflexivity. Qed.

Lemma unixToInternal_value : time.unixToInternal = 62135596800.
Proof. reflexivity. Qed.

(** ** Properties of the server *)

Section Properties.

Context `{Enums}.
Variable s : Env.




Lemma NoDup4 (a b c d : Z) :
  NoDup [a; b; c; d] ->
  a <> b /\ a <> c /\ a <> d /\ b <> c /\ b <> d /\ c <> d.
Proof.
  intros Hnd.
  apply NoDup_cons in Hnd as [Ha Hnd].
  apply NoDup_cons in Hnd as [Hb Hnd].
  apply NoDup_cons in Hnd as [Hc _].
  set_solver.
Qed.

Lemma state_gate_open (sess : Session) :
  State sess = StateCreated \/ State sess = StateInUse ->
  negb (State sess =? StateInUse) && negb (State sess =? StateCreated) = false.
Proof.
  intros [-> | ->]; rewrite Z.eqb_refl; simpl; [apply andb_false_r | reflexivity].
Qed.

Lemma state_gate_closed (sess : Session) :
  State sess <> StateCreated -> State sess <> StateInUse ->
  negb (State sess =? StateInUse) && negb (State sess =? StateCreated) = true.
Proof.
  intros Hc Hu. apply Z.eqb_neq in Hc, Hu. rewrite Hc, Hu. reflexivity.
Qed.

(** *** Enum translation *)

(** C9. The translation of session types is a round trip on the four known
    types, and each direction fails with the unknown-type error on every
    value outside its known set. *)
Theorem type_translation_roundtrip :
  NoDup session_types -> NoDup rpc_types ->
  (forall t, In t session_types ->
     exists r, marshalRPCType t = Ok r /\ unmarshalRPCType r = Ok t)
  /\ (forall t, ~ In t session_types ->
        marshalRPCType t = Err ("unknown type <" +:+ pretty t +:+ ">"))
  /\ (forall r, ~ In r rpc_types ->
        unmarshalRPCType r = Err ("unknown type <" +:+ pretty r +:+ ">")).
Proof.
  intros Hs Hr.
  apply NoDup4 in Hs as (s1 & s2 & s3 & s4 & s5 & s6).
  apply NoDup4 in Hr as (r1 & r2 & r3 & r4 & r5 & r6).
  split; [| split].
  - intros t Ht. unfold session_types in Ht. simpl in Ht.
    unfold marshalRPCType, unmarshalRPCType.
    destruct Ht as [<- | [<- | [<- | [<- | []]]]].
    + exists SessionType_TYPE_MACAROON_READONLY. rewrite !Z.eqb_refl. auto.
    + exists SessionType_TYPE_MACAROON_ADMIN.
      rewrite (proj2 (Z.eqb_neq _ _) (not_eq_sym s1)).
      rewrite (proj2 (Z.eqb_neq _ _) (not_eq_sym r1)).
      rewrite !Z.eqb_refl. auto.
    + exists SessionType_TYPE_MACAROON_CUSTOM.
      rewrite (proj2 (Z.eqb_neq _ _) (not_eq_sym s2)).
      rewrite (proj2 (Z.eqb_neq _ _) (not_eq_sym s4)).
      rewrite (proj2 (Z.eqb_neq _ _) (not_eq_sym r2)).
      rewrite (proj2 (Z.eqb_neq _ _) (not_eq_sym r4)).
      rewrite !Z.eqb_refl. auto.
    + exists SessionType_TYPE_UI_PASSWORD.
      rewrite (proj2 (Z.eqb_neq _ _) (not_eq_sym s3)).
      rewrite (proj2 (Z.eqb_neq _ _) (not_eq_sym s5)).
      rewrite (proj2 (Z.eqb_neq _ _) (not_eq_sym s6)).
      rewrite (proj2 (Z.eqb_neq _ _) (not_eq_sym r3)).
      rewrite (proj2 (Z.eqb_neq _ _) (not_eq_sym r5)).
      rewrite (proj2 (Z.eqb_neq _ _) (not_eq_sym r6)).
      rewrite !Z.eqb_refl. auto.
  - intros t Ht. unfold session_types in Ht. simpl in Ht.
    unfold marshalRPCType.
    repeat match goal with
           | |- context [t =? ?c] =>
               destruct (Z.eqb_spec t c) as [E | _]; [exfalso; subst t; tauto |]
           end.
    reflexivity.
  - intros r Hr. unfold rpc_types in Hr. simpl in Hr.
    unfold unmarshalRPCType.
    repeat match goal with
           | |- context [r =? ?c] =>
               destruct (Z.eqb_spec r c) as [E | _]; [exfalso; subst r; tauto |]
           end.
    reflexivity.
Qed.

(** *** The resume decision *)

(** C2. A session whose state is neither Created nor InUse is skipped: the
    call returns no error and leaves one log line; the store, the set of
    watchers and the clock are untouched and no collaborator is called. *)
Theorem resumeSession_skips_terminal_states (sess : Session) (w : World) :
  State sess <> StateCreated -> State sess <> StateInUse ->
  exists w',
    resumeSession s sess w = Done None w'
    /\ w' = record (EvLog "Not resuming session %x with state %d") w
    /\ store w' = store w
    /\ watchers w' = watchers w
    /\ calls (trace w') = calls (trace w).
Proof.
  intros Hc Hu. eexists. split; [| split; [reflexivity |]].
  - unfold resumeSession. rewrite state_gate_closed by assumption. reflexivity.
  - repeat split. unfold calls, record. simpl.
    rewrite List.filter_app. simpl. apply app_nil_r.
Qed.

(** C5, as the code has it. A session that reaches credential construction
    with a type other than UIPassword, MacaroonAdmin and MacaroonReadonly is
    skipped silently: the call returns no error and leaves one log line; no
    store write, no start call, no watcher. *)
Theorem resumeSession_skips_other_types (sess : Session) (w : World) :
  reaches_credentials sess (clock s (ticks w)) ->
  Type' sess <> TypeUIPassword ->
  Type' sess <> TypeMacaroonAdmin ->
  Type' sess <> TypeMacaroonReadonly ->
  exists w',
    resumeSession s sess w = Done None w'
    /\ w' = record (EvLog "Not resuming session %x with type %d") (ticked w)
    /\ store w' = store w
    /\ watchers w' = watchers w
    /\ calls (trace w') = calls (trace w).
Proof.
  intros [Hst Hexp] Hp Ha Hr. eexists. split; [| split; [reflexivity |]].
  - unfold resumeSession. rewrite state_gate_open by assumption.
    unfold bind at 1, time_Now. rewrite Hexp.
    apply Z.eqb_neq in Hp, Ha, Hr. rewrite Hp, Ha, Hr. reflexivity.
  - repeat split. unfold calls, record. simpl.
    rewrite List.filter_app. simpl. apply app_nil_r.
Qed.

(** C7. When the baking of the macaroon fails for a MacaroonAdmin or
    MacaroonReadonly session being resumed, the call returns no error; the
    only call made is the one to the baker, followed by a log line: the
    tunnel is not started, no watcher is spawned and the store is not
    written. *)
Theorem resumeSession_soft_skip_on_bake_failure
    (sess : Session) (w : World) (e : error) :
  NoDup session_types ->
  reaches_credentials sess (clock s (ticks w)) ->
  Type' sess = TypeMacaroonAdmin \/ Type' sess = TypeMacaroonReadonly ->
  let perms := GetAllPermissions s (Type' sess =? TypeMacaroonReadonly) in
  let w1 := record (EvBake (MacaroonRootKey sess) perms) (ticked w) in
  superMacBaker s w1 (MacaroonRootKey sess) perms = Err e ->
  exists w',
    resumeSession s sess w = Done None w'
    /\ trace w' =
         trace w ++ [EvBake (MacaroonRootKey sess) perms;
                     EvLog "Not resuming session %x. Could not bakethe necessary macaroon: %w"]
    /\ store w' = store w
    /\ watchers w' = watchers w.
Proof.
  intros Hnd [Hst Hexp] Hty perms w1 Hbake.
  apply NoDup4 in Hnd as (_ & _ & s3 & _ & s5 & _).
  assert (Hp : (Type' sess =? TypeUIPassword) = false).
  { apply Z.eqb_neq. destruct Hty as [-> | ->]; assumption. }
  assert (Hm : (Type' sess =? TypeMacaroonAdmin)
               || (Type' sess =? TypeMacaroonReadonly) = true).
  { destruct Hty as [-> | ->]; rewrite Z.eqb_refl;
      [reflexivity | apply orb_true_r]. }
  eexists. split.
  - unfold resumeSession. rewrite state_gate_open by assumption.
    unfold bind at 1, time_Now. rewrite Hexp, Hp, Hm.
    unfold bind at 1, call_superMacBaker, bind at 1, emit.
    fold (ticked w). fold perms. fold w1. rewrite Hbake. reflexivity.
  - repeat split. simpl. rewrite <- app_assoc. reflexivity.
Qed.

(** C1, as the code has it. A session in state Created or InUse whose expiry
    is strictly before the current time is not started: the only call is one
    revoke of its key in the store, no watcher is spawned and the tunnel is
    not asked to start.  When the store accepts the revoke, the stored record
    is in state Revoked and no error is returned; when the store refuses, its
    failure is the error returned and the store is unchanged. *)
Theorem resumeSession_revokes_expired (sess : Session) (w : World) :
  State sess = StateCreated \/ State sess = StateInUse ->
  time.wf (Expiry sess) -> time.wf (clock s (ticks w)) ->
  time.nanos (Expiry sess) < time.nanos (clock s (ticks w)) ->
  let key := LocalPublicKey sess in
  let w1 := record (EvRevokeSession key)
              (record (EvLog "Not resuming session %x with expiry %s") (ticked w)) in
  exists r w',
    resumeSession s sess w = Done r w'
    /\ trace w' =
         trace w ++ [EvLog "Not resuming session %x with expiry %s";
                     EvRevokeSession key]
    /\ watchers w' = watchers w
    /\ match db_fault s w1 (OpRevokeSession key), store w !! key with
       | None, Some stored =>
           r = None
           /\ store w' = <[key := withState StateRevoked stored]> (store w)
       | Some e, _ =>
           r = Some ("error revoking session: " +:+ e) /\ store w' = store w
       | None, None =>
           r = Some ("error revoking session: session not found")
           /\ store w' = store w
       end.
Proof.
  intros Hst Hwe Hwn Hlt key w1.
  apply Before_nanos in Hlt; [| assumption | assumption].
  assert (Hrun : resumeSession s sess w =
                 match db_fault s w1 (OpRevokeSession key), store w !! key with
                 | None, Some stored =>
                     Done None
                       (set_store (<[key := withState StateRevoked stored]> (store w)) w1)
                 | Some e, _ => Done (Some ("error revoking session: " +:+ e)) w1
                 | None, None =>
                     Done (Some ("error revoking session: session not found")) w1
                 end).
  { unfold resumeSession. rewrite state_gate_open by assumption.
    unfold bind at 1, time_Now. rewrite Hlt.
    unfold bind at 1, log_Debugf, emit.
    unfold bind at 1, db_RevokeSession, bind at 1, emit.
    fold (ticked w). fold key. fold w1.
    destruct (db_fault s w1 (OpRevokeSession key)) as [e |]; [reflexivity |].
    change (store w1) with (store w).
    destruct (store w !! key) as [stored |]; reflexivity. }
  rewrite Hrun.
  destruct (db_fault s w1 (OpRevokeSession key)) as [e |];
    [| destruct (store w !! key) as [stored |]];
    eexists; eexists; (split; [reflexivity |]);
    (split; [simpl; rewrite <- app_assoc; reflexivity |]);
    (split; [reflexivity |]); split; reflexivity.
Qed.

(** *** Revocation *)

(** C8. With a parseable key, [RevokeSession] asks the store first.  When the
    store refuses (an injected failure, or a key it does not know), the error
    is returned and the trace ends with the revoke: the tunnel is never asked
    to stop.  When the store accepts, the tunnel is asked to stop, a failure
    of the stop leaves only a log line, and the call succeeds either way. *)
Theorem RevokeSession_store_first
    (req : RevokeSessionRequest) (pubKey : Z) (w : World) :
  ParsePubKey s (req_LocalPublicKey req) = Ok pubKey ->
  let w1 := record (EvRevokeSession pubKey) w in
  match db_fault s w1 (OpRevokeSession pubKey), store w !! pubKey with
  | None, Some stored =>
      let w2 := record (EvStopSession pubKey)
                  (set_store (<[pubKey := withState StateRevoked stored]> (store w)) w1) in
      RevokeSession s req w =
        Done (Ok mkRevokeSessionResponse)
          match StopSession_result s w2 pubKey with
          | Some _ => record (EvLog "Error stopping session: %v") w2
          | None => w2
          end
  | Some e, _ =>
      RevokeSession s req w = Done (Err ("error revoking session: " +:+ e)) w1
  | None, None =>
      RevokeSession s req w =
        Done (Err "error revoking session: session not found") w1
  end.
Proof.
  intros Hparse w1.
  assert (Hrun :
    RevokeSession s req w =
    match db_fault s w1 (OpRevokeSession pubKey), store w !! pubKey with
    | None, Some stored =>
        let w2 := record (EvStopSession pubKey)
                    (set_store (<[pubKey := withState StateRevoked stored]> (store w)) w1) in
        Done (Ok mkRevokeSessionResponse)
          match StopSession_result s w2 pubKey with
          | Some _ => record (EvLog "Error stopping session: %v") w2
          | None => w2
          end
    | Some e, _ => Done (Err ("error revoking session: " +:+ e)) w1
    | None, None => Done (Err "error revoking session: session not found") w1
    end).
  { unfold RevokeSession. rewrite Hparse.
    unfold bind at 1, db_RevokeSession, bind at 1, emit. fold w1.
    destruct (db_fault s w1 (OpRevokeSession pubKey)) as [e |]; [reflexivity |].
    change (store w1) with (store w).
    destruct (store w !! pubKey) as [stored |]; [| reflexivity].
    cbv zeta.
    unfold bind at 1, bind at 1, sessionServer_StopSession, bind at 1, emit.
    destruct (StopSession_result s _ pubKey); reflexivity. }
  rewrite Hrun.
  destruct (db_fault s w1 (OpRevokeSession pubKey)) as [e |];
    [| destruct (store w !! pubKey) as [stored |]]; reflexivity.
Qed.

(** *** The watcher *)


(** C3. A watcher acts on the one trigger its [select] took and exits.  On
    quit and on the closed notification it only leaves the wait group.  On
    the timer it asks the tunnel to stop the session, then asks the store to
    revoke it, whatever the stop answered; a failure of either call leaves a
    log line and nothing else, and the watcher exits normally. *)
Theorem watcher_acts_on_one_trigger (wt : Watcher) (w : World) :
  let key := LocalPublicKey (w_sess wt) in
  let w1 := record (EvStopSession key)
              (record (EvLog "Stopping expired session %x with type %d") w) in
  let w2 := record (EvRevokeSession key)
              match StopSession_result s w1 key with
              | Some _ => record (EvLog "Error stopping session: %v") w1
              | None => w1
              end in
  let w3 := match db_fault s w2 (OpRevokeSession key), store w !! key with
            | None, Some stored =>
                set_store (<[key := withState StateRevoked stored]> (store w)) w2
            | _, _ => record (EvLog "error revoking session: %v") w2
            end in
  watcher s wt OnQuit w = Done tt (exited wt w)
  /\ watcher s wt OnSessionClosed w = Done tt (exited wt w)
  /\ watcher s wt OnTicker w = Done tt (exited wt w3)
  /\ calls (trace (exited wt w)) = calls (trace w)
  /\ store (exited wt w) = store w
  /\ calls (trace (exited wt w3)) =
       calls (trace w) ++ [EvStopSession key; EvRevokeSession key]
  /\ store (exited wt w3) =
       match db_fault s w2 (OpRevokeSession key), store w !! key with
       | None, Some stored => <[key := withState StateRevoked stored]> (store w)
       | _, _ => store w
       end.
Proof.
  intros key w1 w2 w3.
  assert (Hcalls : forall e w0, is_call e = false ->
                     calls (trace (record e w0)) = calls (trace w0)).
  { intros e w0 He. unfold calls, record. simpl.
    rewrite List.filter_app. simpl. rewrite He. apply app_nil_r. }
  split; [reflexivity |]. split; [reflexivity |].
  split; [| split; [| split; [| split]]].
  - unfold w3, w2, w1. clear w3 w2 w1.
    cbv beta iota zeta delta [watcher bind ret emit log_Debugf wg_Done
                         sessionServer_StopSession db_RevokeSession].
    fold key.
    destruct (StopSession_result s _ key);
      (destruct (db_fault s _ (OpRevokeSession key)); [reflexivity |]);
      cbn [store record set_trace];
      destruct (store w !! key); reflexivity.
  - unfold exited. apply (Hcalls (EvWgDone wt) w). reflexivity.
  - reflexivity.
  - assert (H2 : calls (trace w2) =
                 calls (trace w) ++ [EvStopSession key; EvRevokeSession key]).
    { unfold w2, w1.
      destruct (StopSession_result s _ key); unfold calls, record; simpl;
        rewrite !List.filter_app; simpl; rewrite <- !app_assoc; reflexivity. }
    unfold exited. change (trace (set_watchers ?l ?x)) with (trace x).
    rewrite Hcalls by reflexivity. rewrite <- H2. unfold w3.
    destruct (db_fault s w2 (OpRevokeSession key));
      [| destruct (store w !! key)];
      first [reflexivity | apply Hcalls; reflexivity].
  - unfold w3, w2.
    destruct (db_fault s _ (OpRevokeSession key));
      [| destruct (store w !! key)];
      destruct (StopSession_result s w1 key); reflexivity.
Qed.

(** *** Shutdown *)


Lemma count_app (p : Event -> bool) (a b : list Event) :
  count p (a ++ b) = (count p a + count p b)%nat.
Proof. unfold count. rewrite List.filter_app. apply length_app. Qed.

Lemma remove_all_self (l : list Watcher) : remove_all l l = [].
Proof.
  induction l as [| x l IH]; [reflexivity |].
  unfold remove_all in *. simpl. rewrite decide_True by reflexivity. exact IH.
Qed.

Lemma untouched_trans (a b c : World) :
  untouched_by_watchers a b -> untouched_by_watchers b c ->
  untouched_by_watchers a c.
Proof.
  intros (q1 & o1 & e1 & t1 & c1 & k1) (q2 & o2 & e2 & t2 & c2 & k2).
  split; [congruence |]. split; [congruence |].
  exists (e1 ++ e2). rewrite t2, t1, <- app_assoc, !count_app, c1, c2, k1, k2.
  auto.
Qed.

(** A watcher always runs to its end, whatever its trigger and whatever the
    collaborators answer, and leaves the wait group. *)
Lemma watcher_exits (wt : Watcher) (trig : Trigger) (w : World) :
  exists w',
    watcher s wt trig w = Done tt w'
    /\ watchers w' = remove_first wt (watchers w)
    /\ untouched_by_watchers w w'.
Proof.
  destruct trig;
    cbv beta iota zeta delta [watcher bind ret emit log_Debugf wg_Done
                              sessionServer_StopSession db_RevokeSession].
  1, 2: eexists; split; [reflexivity |]; split; [reflexivity |];
        split; [reflexivity |]; split; [reflexivity |];
        eexists; split; [reflexivity | split; reflexivity].
  destruct (StopSession_result s _ _);
    (destruct (db_fault s _ _);
     [| cbn [store record set_trace]; destruct (store w !! _)]);
    (eexists; split; [reflexivity |]; split; [reflexivity |];
     split; [reflexivity |]; split; [reflexivity |];
     eexists; split;
     [cbn [trace record set_trace set_watchers set_store];
      rewrite <- ?app_assoc; reflexivity
     | split; reflexivity]).
Qed.

Lemma drain_exits (ws : list Watcher) (w : World) :
  exists w',
    drain s ws w = Done tt w'
    /\ watchers w' = remove_all ws (watchers w)
    /\ untouched_by_watchers w w'.
Proof.
  revert w. induction ws as [| wt ws IH]; intros w.
  - exists w. split; [reflexivity |]. split; [reflexivity |].
    split; [reflexivity |]. split; [reflexivity |].
    exists []. rewrite app_nil_r. repeat split.
  - destruct (watcher_exits wt (selected s w wt) w) as (w1 & Hrun & Hws & Hun).
    destruct (IH w1) as (w2 & Hrun2 & Hws2 & Hun2).
    exists w2. split; [| split].
    + simpl. unfold bind. rewrite Hrun. exact Hrun2.
    + rewrite Hws2, Hws. reflexivity.
    + eapply untouched_trans; eassumption.
Qed.

(** The first call of [stop] closes the quit channel once, waits once, and
    returns with no goroutine left. *)
Lemma stop_first (w : World) :
  stopOnce_done w = false -> quit_closed w = false ->
  exists w',
    stop s w = Done tt w'
    /\ stopOnce_done w' = true
    /\ quit_closed w' = true
    /\ watchers w' = []
    /\ exists evs, trace w' = trace w ++ evs
         /\ count is_close evs = 1%nat /\ count is_wait evs = 1%nat.
Proof.
  intros Honce Hquit.
  set (w1 := record EvWgWait (set_quit_closed true (record EvCloseQuit w))).
  destruct (drain_exits (watchers w) w1)
    as (w2 & Hrun & Hws & Hq & Ho & evs & Htr & Hc & Hk).
  exists (set_stopOnce_done true w2).
  assert (Hstop : stop s w = Done tt (set_stopOnce_done true w2)).
  { unfold stop, stopOnce_Do. rewrite Honce.
    unfold bind at 1, close_quit. rewrite Hquit.
    unfold wg_Wait, bind at 1, emit. fold w1.
    change (watchers w1) with (watchers w). rewrite Hrun. reflexivity. }
  split; [exact Hstop |]. split; [reflexivity |].
  split; [exact Hq |].
  split; [simpl; rewrite Hws; apply remove_all_self |].
  exists ([EvCloseQuit; EvWgWait] ++ evs).
  split.
  - simpl. rewrite Htr. unfold w1. simpl. rewrite <- !app_assoc. reflexivity.
  - rewrite !count_app, Hc, Hk. split; reflexivity.
Qed.

(** Once the gate has run, [stop] does nothing. *)
Lemma stop_again (w : World) :
  stopOnce_done w = true -> stop s w = Done tt w.
Proof. intros Honce. unfold stop, stopOnce_Do. rewrite Honce. reflexivity. Qed.

Lemma stop_times_again (n : nat) (w : World) :
  stopOnce_done w = true -> stop_times s n w = Done tt w.
Proof.
  intros Honce. induction n as [| n IH]; [reflexivity |].
  simpl. unfold bind. rewrite stop_again by assumption. exact IH.
Qed.

(** *** The invariant of the quit channel *)

Lemma keeps_gate_ret {A : Type} (a : A) : keeps_gate (ret a).
Proof. intros w. exists a, w. auto. Qed.

Lemma keeps_gate_bind {A B : Type} (c : M A) (k : A -> M B) :
  keeps_gate c -> (forall a, keeps_gate (k a)) -> keeps_gate (bind c k).
Proof.
  intros Hc Hk w. destruct (Hc w) as (a & w1 & Hrun & Hq & Ho).
  destruct (Hk a w1) as (b & w2 & Hrun2 & Hq2 & Ho2).
  exists b, w2. unfold bind. rewrite Hrun. split; [exact Hrun2 |].
  split; congruence.
Qed.

Lemma keeps_gate_emit (e : Event) : keeps_gate (emit e).
Proof. intros w. exists tt, (record e w). auto. Qed.

Lemma keeps_gate_Now : keeps_gate (time_Now s).
Proof. intros w. eexists _, _. split; [reflexivity |]. auto. Qed.

Lemma keeps_gate_db_RevokeSession (key : Z) : keeps_gate (db_RevokeSession s key).
Proof.
  apply keeps_gate_bind; [apply keeps_gate_emit |]. intros _ w.
  destruct (db_fault s w (OpRevokeSession key));
    [| destruct (store w !! key)];
    eexists _, _; (split; [reflexivity |]); auto.
Qed.

Lemma keeps_gate_db_StoreSession (sess : Session) :
  keeps_gate (db_StoreSession s sess).
Proof.
  apply keeps_gate_bind; [apply keeps_gate_emit |]. intros _ w.
  destruct (db_fault s w (OpStoreSession sess));
    eexists _, _; (split; [reflexivity |]); auto.
Qed.

Lemma keeps_gate_NewSession label typ expiry addr dev :
  keeps_gate (session_NewSession s label typ expiry addr dev).
Proof.
  intros w. unfold session_NewSession.
  destruct (session_entropy s w) as [[[secret key] rootKey] | e];
    eexists _, _; (split; [reflexivity |]); auto.
Qed.

Lemma keeps_gate_StartSession (sess : Session) (authData : string) :
  keeps_gate (sessionServer_StartSession s sess authData).
Proof.
  apply keeps_gate_bind; [apply keeps_gate_emit |]. intros _ w.
  eexists _, _. split; [reflexivity |]. auto.
Qed.

Lemma keeps_gate_StopSession (key : Z) :
  keeps_gate (sessionServer_StopSession s key).
Proof.
  apply keeps_gate_bind; [apply keeps_gate_emit |]. intros _ w.
  eexists _, _. split; [reflexivity |]. auto.
Qed.

Lemma keeps_gate_superMacBaker (rootKeyID : Z) (perms : list (string * string)) :
  keeps_gate (call_superMacBaker s rootKeyID perms).
Proof.
  apply keeps_gate_bind; [apply keeps_gate_emit |]. intros _ w.
  eexists _, _. split; [reflexivity |]. auto.
Qed.

Lemma keeps_gate_go_watcher (wt : Watcher) : keeps_gate (go_watcher wt).
Proof.
  apply keeps_gate_bind; [apply keeps_gate_emit |]. intros _ w.
  eexists _, _. split; [reflexivity |]. auto.
Qed.

Lemma keeps_gate_watcher (wt : Watcher) (trig : Trigger) :
  keeps_gate (watcher s wt trig).
Proof.
  intros w. destruct (watcher_exits wt trig w) as (w' & Hrun & _ & Hq & Ho & _).
  exists tt, w'. auto.
Qed.

(** Composing the rules above along the code of a function. *)
Ltac gate_step :=
  first
    [ apply keeps_gate_ret
    | apply keeps_gate_emit
    | apply keeps_gate_Now
    | apply keeps_gate_db_RevokeSession
    | apply keeps_gate_db_StoreSession
    | apply keeps_gate_NewSession
    | apply keeps_gate_StartSession
    | apply keeps_gate_StopSession
    | apply keeps_gate_superMacBaker
    | apply keeps_gate_go_watcher
    | apply keeps_gate_bind; [| intros ?]
    | match goal with
      | |- keeps_gate (match ?x with _ => _ end) => destruct x
      end ].

Lemma keeps_gate_resumeSession (sess : Session) :
  keeps_gate (resumeSession s sess).
Proof. unfold resumeSession, log_Debugf. repeat gate_step. Qed.

Lemma keeps_gate_AddSession (req : AddSessionRequest) :
  keeps_gate (AddSession s req).
Proof.
  unfold AddSession.
  repeat first [apply keeps_gate_resumeSession | gate_step].
Qed.

Lemma keeps_gate_RevokeSession (req : RevokeSessionRequest) :
  keeps_gate (RevokeSession s req).
Proof. unfold RevokeSession, log_Debugf. repeat gate_step. Qed.

(** [stop] always returns once the invariant holds, and leaves the gate run. *)
Lemma stop_returns (w : World) :
  gate_inv w -> exists w', stop s w = Done tt w' /\ stopOnce_done w' = true.
Proof.
  intros Hinv. destruct (stopOnce_done w) eqn:Honce.
  - exists w. split; [apply stop_again; exact Honce | exact Honce].
  - destruct (stop_first w Honce (Hinv Honce)) as (w' & Hstop & Ho & _).
    exists w'. auto.
Qed.

(** Whatever calls a server receives and whatever its watchers do, in any
    order, nothing panics and the quit channel stays open until [stop] ran:
    the hypothesis of the idempotence theorem holds in every reachable
    state. *)
Lemma gate_inv_reachable (cs : list Call) (w : World) :
  gate_inv w ->
  exists w', perform_all s cs w = Done tt w' /\ gate_inv w'.
Proof.
  revert w. induction cs as [| c cs IH]; intros w Hinv.
  - exists w. auto.
  - assert (Hstep : exists w1, perform s c w = Done tt w1 /\ gate_inv w1).
    { assert (Hkept : forall m : M unit, keeps_gate m ->
                exists w1, m w = Done tt w1 /\ gate_inv w1).
      { intros m Hm. destruct (Hm w) as ([] & w1 & Hrun & Hq & Ho).
        exists w1. split; [exact Hrun |].
        intros Hf. rewrite Hq. apply Hinv. rewrite <- Ho. exact Hf. }
      destruct c as [req | sess | req | | wt trig]; simpl.
      - apply Hkept, keeps_gate_bind;
          [apply keeps_gate_AddSession | intros; apply keeps_gate_ret].
      - apply Hkept, keeps_gate_bind;
          [apply keeps_gate_resumeSession | intros; apply keeps_gate_ret].
      - apply Hkept, keeps_gate_bind;
          [apply keeps_gate_RevokeSession | intros; apply keeps_gate_ret].
      - destruct (stop_returns w Hinv) as (w1 & Hrun & Ho).
        exists w1. split; [exact Hrun |]. unfold gate_inv. congruence.
      - apply Hkept, keeps_gate_watcher. }
    destruct Hstep as (w1 & Hrun & Hinv1).
    destruct (IH w1 Hinv1) as (w' & Hrun' & Hinv').
    exists w'. split; [| exact Hinv'].
    simpl. unfold bind. rewrite Hrun. exact Hrun'.
Qed.

(** C4. Shutdown is idempotent.  From any state in which the quit channel is
    open unless [stop] already ran, two or more calls of [stop] end, without
    panic, in the state one call ends in, and one more call changes nothing.
    If [stop] had not run before, the quit channel was closed exactly once
    and the wait group was waited on exactly once, leaving no watcher. *)
Theorem stop_idempotent (w : World) (n : nat) :
  gate_inv w ->
  exists w',
    stop s w = Done tt w'
    /\ stop_times s (S (S n)) w = Done tt w'
    /\ stop s w' = Done tt w'
    /\ stopOnce_done w' = true
    /\ (stopOnce_done w = true -> w' = w)
    /\ (stopOnce_done w = false ->
          quit_closed w' = true
          /\ watchers w' = []
          /\ exists evs, trace w' = trace w ++ evs
               /\ count is_close evs = 1%nat /\ count is_wait evs = 1%nat).
Proof.
  intros Hinv. destruct (stopOnce_done w) eqn:Honce.
  - exists w. rewrite stop_again by assumption.
    rewrite stop_times_again by assumption.
    repeat split; try assumption; discriminate.
  - destruct (stop_first w Honce (Hinv Honce))
      as (w' & Hstop & Ho & Hq & Hws & Hev).
    exists w'. split; [exact Hstop |]. split; [| split; [| split; [| split]]].
    + change (stop_times s (S (S n)) w)
        with (bind (stop s) (fun _ => stop_times s (S n)) w).
      unfold bind. rewrite Hstop. apply stop_times_again. exact Ho.
    + apply stop_again. exact Ho.
    + exact Ho.
    + discriminate.
    + intros _. auto.
Qed.

(** *** Validation of the expiry in AddSession *)


(** C10. An expiry of 2^63 seconds or more becomes negative when converted
    to [int64], that is, a time before 1970; with a clock that reads the
    epoch or later the request is rejected with the expiry error, and no
    session is created or stored. *)
Theorem AddSession_rejects_wrapped_expiry (req : AddSessionRequest) (w : World) :
  2 ^ 63 <= req_ExpiryTimestampSeconds req < 2 ^ 64 ->
  time.unixToInternal <= time.sec (clock s (ticks w)) ->
  goint.to_int64 (req_ExpiryTimestampSeconds req) < 0
  /\ AddSession s req w = Done (Err "expiry must be in the future") (ticked w)
  /\ store (ticked w) = store w
  /\ trace (ticked w) = trace w
  /\ watchers (ticked w) = watchers w.
Proof.
  intros He Hnow.
  rewrite to_int64_high by assumption.
  split; [lia |]. split; [| repeat split].
  unfold AddSession, bind at 1, time_Now. fold (ticked w).
  rewrite to_int64_high by assumption.
  rewrite Unix_whole_seconds.
  rewrite unixToInternal_value in *.
  rewrite to_int64_id by (unfold goint.is_int64; lia).
  assert (Hafter : time.After (clock s (ticks w))
                     (time.mkTime
                        (req_ExpiryTimestampSeconds req - 2 ^ 64 + 62135596800) 0)
                   = true).
  { unfold time.After. simpl.
    rewrite orb_true_iff, !Z.gtb_ltb, !Z.ltb_lt. lia. }
  rewrite Hafter. reflexivity.
Qed.

(** *** More on the translation to the wire *)

Lemma to_int64_wraps (x y : Z) (k : Z) :
  goint.is_int64 y -> x = y + k * 2 ^ 64 -> goint.to_int64 x = y.
Proof.
  unfold goint.is_int64, goint.to_int64. intros Hy ->.
  replace (y + k * 2 ^ 64 + 2 ^ 63) with (y + 2 ^ 63 + k * 2 ^ 64) by lia.
  rewrite Z_mod_plus_full, Z.mod_small by lia. lia.
Qed.

Lemma to_int64_range (x : Z) :
  goint.is_int64 (goint.to_int64 x)
  /\ exists k, goint.to_int64 x = x + k * 2 ^ 64.
Proof.
  unfold goint.is_int64, goint.to_int64.
  pose proof (Z.mod_pos_bound (x + 2 ^ 63) (2 ^ 64) ltac:(lia)) as Hb.
  split; [lia |].
  exists (- ((x + 2 ^ 63) / 2 ^ 64)).
  pose proof (Z_div_mod_eq_full (x + 2 ^ 63) (2 ^ 64)) as Hd. lia.
Qed.

Lemma to_uint64_range (x : Z) :
  goint.is_uint64 (goint.to_uint64 x)
  /\ exists k, goint.to_uint64 x = x + k * 2 ^ 64.
Proof.
  unfold goint.is_uint64, goint.to_uint64.
  pose proof (Z.mod_pos_bound x (2 ^ 64) ltac:(lia)) as Hb.
  split; [lia |].
  exists (- (x / 2 ^ 64)).
  pose proof (Z_div_mod_eq_full x (2 ^ 64)) as Hd. lia.
Qed.

(** Reading back the seconds that [marshalRPCSession] puts on the wire, the
    way [AddSession] reads a request, gives the time truncated to the second. *)
Lemma Unix_of_wire_seconds (t : Time) :
  goint.is_int64 (time.sec t) ->
  time.Unix (goint.to_int64 (goint.to_uint64 (time.Time_Unix t))) 0
  = time.mkTime (time.sec t) 0.
Proof.
  intros Hsec. rewrite Unix_whole_seconds. f_equal.
  unfold time.Time_Unix.
  destruct (to_int64_range (time.sec t - time.unixToInternal)) as [_ [k1 E1]].
  destruct (to_uint64_range (goint.to_int64 (time.sec t - time.unixToInternal)))
    as [_ [k2 E2]].
  destruct (to_int64_range
              (goint.to_uint64 (goint.to_int64 (time.sec t - time.unixToInternal))))
    as [_ [k3 E3]].
  apply (to_int64_wraps _ _ (k1 + k2 + k3)); [exact Hsec |].
  rewrite E3, E2, E1. lia.
Qed.

Lemma marshalRPCState_Ok_inv (st r : Z) :
  marshalRPCState st = Ok r ->
  (st = StateCreated /\ r = SessionState_STATE_CREATED)
  \/ (st = StateInUse /\ r = SessionState_STATE_IN_USE)
  \/ (st = StateRevoked /\ r = SessionState_STATE_REVOKED)
  \/ (st = StateExpired /\ r = SessionState_STATE_EXPIRED).
Proof.
  unfold marshalRPCState.
  repeat match goal with
         | |- context [st =? ?c] => destruct (Z.eqb_spec st c)
         end; intros E; inversion E; tauto.
Qed.

Lemma marshalRPCState_unknown (st : Z) :
  ~ In st session_states ->
  marshalRPCState st = Err ("unknown state <" +:+ pretty st +:+ ">").
Proof.
  intros Hst. unfold session_states in Hst. simpl in Hst.
  unfold marshalRPCState.
  repeat match goal with
         | |- context [st =? ?c] =>
             destruct (Z.eqb_spec st c) as [E | _]; [exfalso; subst st; tauto |]
         end.
  reflexivity.
Qed.

Lemma marshalRPCType_Ok_inv (t r : Z) :
  marshalRPCType t = Ok r ->
  (t = TypeMacaroonReadonly /\ r = SessionType_TYPE_MACAROON_READONLY)
  \/ (t = TypeMacaroonAdmin /\ r = SessionType_TYPE_MACAROON_ADMIN)
  \/ (t = TypeMacaroonCustom /\ r = SessionType_TYPE_MACAROON_CUSTOM)
  \/ (t = TypeUIPassword /\ r = SessionType_TYPE_UI_PASSWORD).
Proof.
  unfold marshalRPCType.
  repeat match goal with
         | |- context [t =? ?c] => destruct (Z.eqb_spec t c)
         end; intros E; inversion E; tauto.
Qed.

Lemma marshalRPCType_unknown (t : Z) :
  ~ In t session_types ->
  marshalRPCType t = Err ("unknown type <" +:+ pretty t +:+ ">").
Proof.
  intros Ht. unfold session_types in Ht. simpl in Ht.
  unfold marshalRPCType.
  repeat match goal with
         | |- context [t =? ?c] =>
             destruct (Z.eqb_spec t c) as [E | _]; [exfalso; subst t; tauto |]
         end.
  reflexivity.
Qed.

Lemma unmarshalRPCType_Ok_inv (r t : Z) :
  unmarshalRPCType r = Ok t ->
  (r = SessionType_TYPE_MACAROON_READONLY /\ t = TypeMacaroonReadonly)
  \/ (r = SessionType_TYPE_MACAROON_ADMIN /\ t = TypeMacaroonAdmin)
  \/ (r = SessionType_TYPE_MACAROON_CUSTOM /\ t = TypeMacaroonCustom)
  \/ (r = SessionType_TYPE_UI_PASSWORD /\ t = TypeUIPassword).
Proof.
  unfold unmarshalRPCType.
  repeat match goal with
         | |- context [r =? ?c] => destruct (Z.eqb_spec r c)
         end; intros E; inversion E; tauto.
Qed.

Lemma marshalRPCType_known (t : Z) :
  In t session_types -> exists r, marshalRPCType t = Ok r.
Proof.
  intros Ht. unfold session_types in Ht. simpl in Ht. unfold marshalRPCType.
  repeat match goal with
         | |- context [t =? ?c] => destruct (Z.eqb_spec t c)
         end; eauto.
  exfalso. intuition congruence.
Qed.

Lemma marshalRPCState_known (st : Z) :
  In st session_states -> exists r, marshalRPCState st = Ok r.
Proof.
  intros Hst. unfold session_states in Hst. simpl in Hst. unfold marshalRPCState.
  repeat match goal with
         | |- context [st =? ?c] => destruct (Z.eqb_spec st c)
         end; eauto.
  exfalso. intuition congruence.
Qed.

Lemma unmarshal_after_marshal (t r : Z) :
  NoDup rpc_types -> marshalRPCType t = Ok r -> unmarshalRPCType r = Ok t.
Proof.
  intros Hr Hm. apply NoDup4 in Hr as (r1 & r2 & r3 & r4 & r5 & r6).
  unfold unmarshalRPCType.
  apply marshalRPCType_Ok_inv in Hm
    as [[-> ->] | [[-> ->] | [[-> ->] | [-> ->]]]];
    repeat match goal with
           | |- context [?a =? ?b] =>
               destruct (Z.eqb_spec a b); try congruence
           end.
Qed.

(** X1. [marshalRPCState] maps each of the four named states to the wire
    constant of the same name, maps different states to different wire
    values, and fails with the unknown-state error on every other value. *)
Theorem marshalRPCState_known_and_injective :
  NoDup session_states -> NoDup rpc_states ->
  marshalRPCState StateCreated = Ok SessionState_STATE_CREATED
  /\ marshalRPCState StateInUse = Ok SessionState_STATE_IN_USE
  /\ marshalRPCState StateRevoked = Ok SessionState_STATE_REVOKED
  /\ marshalRPCState StateExpired = Ok SessionState_STATE_EXPIRED
  /\ (forall a b r,
        marshalRPCState a = Ok r -> marshalRPCState b = Ok r -> a = b)
  /\ (forall st, ~ In st session_states ->
        marshalRPCState st = Err ("unknown state <" +:+ pretty st +:+ ">")).
Proof.
  intros Hs Hr.
  apply NoDup4 in Hs as (s1 & s2 & s3 & s4 & s5 & s6).
  apply NoDup4 in Hr as (r1 & r2 & r3 & r4 & r5 & r6).
  repeat split.
  1-4: unfold marshalRPCState;
       repeat match goal with
              | |- context [?a =? ?b] =>
                  destruct (Z.eqb_spec a b); try congruence
              end.
  - intros a b r Ha Hb.
    apply marshalRPCState_Ok_inv in Ha, Hb.
    destruct Ha as [[-> Ea] | [[-> Ea] | [[-> Ea] | [-> Ea]]]];
      destruct Hb as [[-> Eb] | [[-> Eb] | [[-> Eb] | [-> Eb]]]];
      congruence.
  - apply marshalRPCState_unknown.
Qed.

(** X2. What [marshalRPCSession] puts on the wire reads back: the label, the
    address, the dev flag, the pairing secret and the keys are copied, the
    type translates back to the type of the session, the state is the
    translation of the session's state, and the expiry read back as
    [AddSession] reads it is the session's expiry to the second. *)
Theorem marshalRPCSession_roundtrip (sess : Session) (r : rpcSession) :
  NoDup rpc_types ->
  time.wf (Expiry sess) ->
  marshalRPCSession s sess = Ok r ->
  rpc_Label r = Label sess
  /\ unmarshalRPCType (rpc_SessionType r) = Ok (Type' sess)
  /\ marshalRPCState (State sess) = Ok (rpc_SessionState r)
  /\ goint.is_uint64 (rpc_ExpiryTimestampSeconds r)
  /\ time.Unix (goint.to_int64 (rpc_ExpiryTimestampSeconds r)) 0
     = time.mkTime (time.sec (Expiry sess)) 0
  /\ rpc_MailboxServerAddr r = ServerAddr sess
  /\ rpc_DevServer r = DevServer sess
  /\ rpc_PairingSecret r = PairingSecret sess
  /\ rpc_LocalPublicKey r = SerializeCompressed s (LocalPublicKey sess)
  /\ rpc_RemotePublicKey r =
       match RemotePublicKey sess with
       | Some k => SerializeCompressed s k
       | None => []
       end.
Proof.
  intros Hr [Hsec _] Hm. unfold marshalRPCSession in Hm.
  destruct (marshalRPCState (State sess)) as [rs | ] eqn:Hst; [| discriminate].
  destruct (marshalRPCType (Type' sess)) as [rt | ] eqn:Hty; [| discriminate].
  destruct (PassphraseEntropyToMnemonic s (PairingSecret sess)); [| discriminate].
  inversion Hm; subst r; clear Hm. simpl.
  split; [reflexivity |].
  split; [apply unmarshal_after_marshal; assumption |].
  split; [reflexivity |].
  split; [apply to_uint64_range |].
  split; [apply Unix_of_wire_seconds; exact Hsec |].
  repeat split.
Qed.

(** X3. [marshalRPCSession] checks the state first, then the type, then the
    mnemonic, and returns the first error unwrapped; it succeeds exactly when
    all three pass. *)
Theorem marshalRPCSession_error_order (sess : Session) :
  (~ In (State sess) session_states ->
     marshalRPCSession s sess
     = Err ("unknown state <" +:+ pretty (State sess) +:+ ">"))
  /\ (In (State sess) session_states -> ~ In (Type' sess) session_types ->
        marshalRPCSession s sess
        = Err ("unknown type <" +:+ pretty (Type' sess) +:+ ">"))
  /\ (In (State sess) session_states -> In (Type' sess) session_types ->
        forall e, PassphraseEntropyToMnemonic s (PairingSecret sess) = Err e ->
        marshalRPCSession s sess = Err e)
  /\ (is_ok (marshalRPCSession s sess) = true <->
        In (State sess) session_states /\ In (Type' sess) session_types
        /\ is_ok (PassphraseEntropyToMnemonic s (PairingSecret sess)) = true).
Proof.
  unfold marshalRPCSession.
  split; [| split; [| split; [| split]]].
  - intros Hst. rewrite marshalRPCState_unknown by assumption. reflexivity.
  - intros Hst Hty. destruct (marshalRPCState_known _ Hst) as [rs ->].
    rewrite marshalRPCType_unknown by assumption. reflexivity.
  - intros Hst Hty e He. destruct (marshalRPCState_known _ Hst) as [rs ->].
    destruct (marshalRPCType_known _ Hty) as [rt ->]. rewrite He. reflexivity.
  - destruct (marshalRPCState (State sess)) as [rs |] eqn:Hst; [| discriminate].
    destruct (marshalRPCType (Type' sess)) as [rt |] eqn:Hty; [| discriminate].
    destruct (PassphraseEntropyToMnemonic s (PairingSecret sess));
      [| discriminate].
    intros _. split; [| split; [| reflexivity]].
    + apply marshalRPCState_Ok_inv in Hst. unfold session_states. simpl.
      intuition.
    + apply marshalRPCType_Ok_inv in Hty. unfold session_types. simpl.
      intuition.
  - intros (Hst & Hty & Hm).
    destruct (marshalRPCState_known _ Hst) as [rs ->].
    destruct (marshalRPCType_known _ Hty) as [rt ->].
    destruct (PassphraseEntropyToMnemonic s (PairingSecret sess));
      [reflexivity | discriminate].
Qed.

(** *** Listing *)

(** The loop of [ListSessions] either fills every slot, in order, or stops at
    the first record that does not translate. *)
Lemma marshal_range_spec (sessions : list Session) (done : list rpcSession) :
  (exists rs,
     Forall2 (fun sess x => marshalRPCSession s sess = Ok x) sessions rs
     /\ marshal_range s (length done) sessions
          ((Some <$> done) ++ replicate (length sessions) None)
        = Ok (Some <$> (done ++ rs)))
  \/ (exists before sess after e,
        sessions = before ++ sess :: after
        /\ Forall (fun x => is_ok (marshalRPCSession s x) = true) before
        /\ marshalRPCSession s sess = Err e
        /\ marshal_range s (length done) sessions
             ((Some <$> done) ++ replicate (length sessions) None)
           = Err ("error marshaling session: " +:+ e)).
Proof.
  revert done. induction sessions as [| sess rest IH]; intros done.
  - left. exists []. split; [constructor |].
    simpl. rewrite !app_nil_r. reflexivity.
  - simpl. destruct (marshalRPCSession s sess) as [x | e] eqn:Hx.
    + assert (Hins : <[length done := Some x]>
                       ((Some <$> done) ++ None :: replicate (length rest) None)
                     = (Some <$> (done ++ [x])) ++ replicate (length rest) None).
      { rewrite fmap_app, <- app_assoc. simpl.
        replace (length done) with (length (Some <$> done) + 0)%nat
          by (rewrite length_fmap; lia).
        rewrite insert_app_r. reflexivity. }
      rewrite Hins.
      replace (S (length done)) with (length (done ++ [x]))
        by (rewrite length_app; simpl; lia).
      destruct (IH (done ++ [x]))
        as [(rs & Hall & Hrun) | (before & bad & after & e & -> & Hok & Hbad & Hrun)].
      * left. exists (x :: rs). split; [constructor; assumption |].
        rewrite Hrun, <- app_assoc. reflexivity.
      * right. exists (sess :: before), bad, after, e.
        split; [reflexivity |].
        split; [constructor; [rewrite Hx; reflexivity | exact Hok] |].
        split; [exact Hbad | exact Hrun].
    + right. exists [], sess, rest, e.
      split; [reflexivity |]. split; [constructor |].
      split; [exact Hx | reflexivity].
Qed.

(** X4. [ListSessions] returns everything or nothing and changes nothing.  A
    store failure is returned as a fetch error.  Otherwise, when every stored
    session translates, the response holds their translations in the order
    of the store, with no empty slot; and when one does not, the call fails
    with the marshaling error of the first such session. *)
Theorem ListSessions_all_or_nothing
    (fault : World -> option string) (w : World) :
  exists r,
    ListSessions s fault w = Done r w
    /\ (forall e, fault w = Some e ->
          r = Err ("error fetching sessions: " +:+ e))
    /\ (fault w = None ->
          (exists rs,
             Forall2 (fun sess x => marshalRPCSession s sess = Ok x)
               ((map_to_list (store w)).*2) rs
             /\ r = Ok (mkListSessionsResponse (Some <$> rs)))
          \/ (exists before sess after e,
                (map_to_list (store w)).*2 = before ++ sess :: after
                /\ Forall (fun x => is_ok (marshalRPCSession s x) = true) before
                /\ marshalRPCSession s sess = Err e
                /\ r = Err ("error marshaling session: " +:+ e))).
Proof.
  unfold ListSessions, bind, db_ListSessions.
  destruct (fault w) as [e |].
  - eexists. split; [reflexivity |]. split; [| discriminate].
    intros e' E. inversion E. reflexivity.
  - destruct (marshal_range_spec ((map_to_list (store w)).*2) [])
      as [(rs & Hall & Hrun) | (before & bad & after & e & Hsplit & Hok & Hbad & Hrun)];
      simpl in Hrun; rewrite Hrun; eexists;
      (split; [reflexivity |]); (split; [discriminate |]); intros _.
    + left. exists rs. auto.
    + right. exists before, bad, after, e. auto.
Qed.

(** *** More on revocation *)

(** X5. [RevokeSession] succeeds only by recording the revocation: when it
    returns a response, the key parsed, the store held a session under it
    and now holds it in state Revoked, and the tunnel was asked once to stop
    it; when it returns an error, the store is unchanged and the tunnel was
    not asked to stop anything.  It never touches the watchers. *)
Theorem RevokeSession_success_means_recorded
    (req : RevokeSessionRequest) (w : World) :
  exists r w' evs,
    RevokeSession s req w = Done r w'
    /\ trace w' = trace w ++ evs
    /\ watchers w' = watchers w
    /\ ((is_ok r = true
         /\ exists key stored,
              ParsePubKey s (req_LocalPublicKey req) = Ok key
              /\ store w !! key = Some stored
              /\ store w' = <[key := withState StateRevoked stored]> (store w)
              /\ calls evs = [EvRevokeSession key; EvStopSession key])
        \/ (is_ok r = false
            /\ store w' = store w
            /\ count is_stop evs = 0%nat)).
Proof.
  destruct (ParsePubKey s (req_LocalPublicKey req)) as [key | e] eqn:Hparse.
  - unfold RevokeSession. rewrite Hparse.
    cbv beta iota zeta delta [bind ret emit log_Debugf
                              sessionServer_StopSession db_RevokeSession].
    destruct (db_fault s _ (OpRevokeSession key)) as [e |];
      [| cbn [store record set_trace];
         destruct (store w !! key) as [stored |] eqn:Hget].
    + eexists _, _, [EvRevokeSession key]. split; [reflexivity |].
      split; [reflexivity |]. split; [reflexivity |]. right. repeat split.
    + destruct (StopSession_result s _ key);
        eexists _, _, _; (split; [reflexivity |]);
        (split; [cbn [trace record set_trace set_store];
                 rewrite <- ?app_assoc; reflexivity |]);
        (split; [reflexivity |]); left; (split; [reflexivity |]);
        exists key, stored; repeat split; exact Hget.
    + eexists _, _, [EvRevokeSession key]. split; [reflexivity |].
      split; [reflexivity |]. split; [reflexivity |]. right. repeat split.
  - exists (Err ("error parsing public key: " +:+ e)), w, [].
    split; [unfold RevokeSession; rewrite Hparse; reflexivity |].
    split; [rewrite app_nil_r; reflexivity |]. split; [reflexivity |].
    right. repeat split.
Qed.

(** *** More on the resume decision *)

(** Case analysis on the innermost test of the goal. *)
Ltac split_innermost :=
  match goal with
  | |- context [match ?x with _ => _ end] =>
      lazymatch x with
      | context [match _ with _ => _ end] => fail
      | _ => destruct x eqn:?
      end
  end.

(** Every way [resumeSession] can go: it always returns, it never stores a
    session, the only change it makes to the store is the revoke of its own
    key, and it registers a watcher exactly when its one call of
    [StartSession] succeeded. *)
Lemma resumeSession_outcome (sess : Session) (w : World) :
  exists r w' evs,
    resumeSession s sess w = Done r w'
    /\ trace w' = trace w ++ evs
    /\ count is_store_session evs = 0%nat
    /\ (store w' = store w
        \/ exists stored,
             store w !! LocalPublicKey sess = Some stored
             /\ store w' = <[LocalPublicKey sess := withState StateRevoked stored]>
                             (store w))
    /\ ((exists pre auth c,
           r = None
           /\ evs = pre ++ [EvStartSession sess auth; EvGo (mkWatcher sess c)]
           /\ count is_start pre = 0%nat /\ count is_go pre = 0%nat
           /\ watchers w' = watchers w ++ [mkWatcher sess c]
           /\ store w' = store w)
        \/ (watchers w' = watchers w
            /\ count is_go evs = 0%nat
            /\ (count is_start evs <= 1)%nat
            /\ (count is_start evs = 1%nat -> exists e, r = Some e))).
Proof.
  unfold resumeSession.
  cbv beta iota zeta delta [bind ret emit log_Debugf time_Now go_watcher
                            sessionServer_StartSession call_superMacBaker
                            db_RevokeSession].
  cbn [store record set_trace set_ticks].
  repeat split_innermost;
    eexists _, _, _; (split; [reflexivity |]);
    (split; [cbn [trace record set_trace set_ticks set_store set_watchers];
             rewrite <- ?app_assoc; reflexivity |]);
    (split; [reflexivity |]);
    (split;
     [first [left; reflexivity
            | right; eexists; split; [eassumption | reflexivity]] |]).
  all: try (right; split; [reflexivity |]; split; [reflexivity |];
        split; [unfold count; simpl; lia |]; unfold count; simpl; intros E;
        first [discriminate E | eexists; reflexivity]).
  all: left;
    first
      [ solve [exists []; eexists _, _;
               (split; [reflexivity |]); (split; [reflexivity |]);
               repeat split]
      | solve [eexists [_]; eexists _, _;
               (split; [reflexivity |]); (split; [reflexivity |]);
               repeat split] ].
Qed.

(** X6. A session that passes both gates with type UIPassword is started
    with the Basic authorization header built from the server's credentials.
    If the tunnel starts, one watcher holding the returned channel is
    registered and no error is returned; if it refuses, its error is returned
    as it is and no watcher is registered.  The store is not touched. *)
Theorem resumeSession_starts_password_session (sess : Session) (w : World) :
  reaches_credentials sess (clock s (ticks w)) ->
  Type' sess = TypeUIPassword ->
  let auth := "Authorization: Basic " +:+ basicAuth s in
  let w1 := record (EvStartSession sess auth) (ticked w) in
  resumeSession s sess w =
    match StartSession_result s w1 sess auth with
    | Ok c =>
        Done None
          (set_watchers (watchers w ++ [mkWatcher sess c])
             (record (EvGo (mkWatcher sess c)) w1))
    | Err e => Done (Some e) w1
    end.
Proof.
  intros [Hst Hexp] Hty auth w1.
  unfold resumeSession. rewrite state_gate_open by assumption.
  unfold bind at 1, time_Now. rewrite Hexp, Hty, Z.eqb_refl.
  unfold bind at 1, sessionServer_StartSession, bind at 1, emit.
  fold (ticked w). fold auth. fold w1.
  destruct (StartSession_result s w1 sess auth); reflexivity.
Qed.

(** X7. A macaroon session that passes both gates asks the baker for the
    read-only permissions when its type is MacaroonReadonly and for the full
    permissions when it is MacaroonAdmin, under the root key of the session;
    the macaroon it gets is sent to the tunnel under the macaroon header, and
    the start then goes as for a password session. *)
Theorem resumeSession_bakes_by_privilege
    (sess : Session) (w : World) (mac : string) :
  NoDup session_types ->
  reaches_credentials sess (clock s (ticks w)) ->
  Type' sess = TypeMacaroonAdmin \/ Type' sess = TypeMacaroonReadonly ->
  let perms := GetAllPermissions s (Type' sess =? TypeMacaroonReadonly) in
  let w1 := record (EvBake (MacaroonRootKey sess) perms) (ticked w) in
  superMacBaker s w1 (MacaroonRootKey sess) perms = Ok mac ->
  let auth := HeaderMacaroon +:+ ": " +:+ mac in
  let w2 := record (EvStartSession sess auth) w1 in
  (Type' sess = TypeMacaroonAdmin -> perms = GetAllPermissions s false)
  /\ (Type' sess = TypeMacaroonReadonly -> perms = GetAllPermissions s true)
  /\ resumeSession s sess w =
       match StartSession_result s w2 sess auth with
       | Ok c =>
           Done None
             (set_watchers (watchers w ++ [mkWatcher sess c])
                (record (EvGo (mkWatcher sess c)) w2))
       | Err e => Done (Some e) w2
       end.
Proof.
  intros Hnd [Hst Hexp] Hty perms w1 Hbake auth w2.
  apply NoDup4 in Hnd as (s1 & _ & s3 & _ & s5 & _).
  assert (Hp : (Type' sess =? TypeUIPassword) = false).
  { apply Z.eqb_neq. destruct Hty as [-> | ->]; assumption. }
  assert (Hm : (Type' sess =? TypeMacaroonAdmin)
               || (Type' sess =? TypeMacaroonReadonly) = true).
  { destruct Hty as [-> | ->]; rewrite Z.eqb_refl;
      [reflexivity | apply orb_true_r]. }
  split; [| split].
  - intros E. unfold perms. rewrite E.
    rewrite (proj2 (Z.eqb_neq _ _) (not_eq_sym s1)). reflexivity.
  - intros E. unfold perms. rewrite E, Z.eqb_refl. reflexivity.
  - unfold resumeSession. rewrite state_gate_open by assumption.
    unfold bind at 1, time_Now. rewrite Hexp, Hp, Hm.
    unfold bind at 1, call_superMacBaker, bind at 1, emit.
    fold (ticked w). fold perms. fold w1. rewrite Hbake.
    unfold bind at 1, sessionServer_StartSession, bind at 1, emit.
    fold auth. fold w2.
    destruct (StartSession_result s w2 sess auth); reflexivity.
Qed.


(** *** More on AddSession *)

(** The code of [AddSession] laid out as the sequence of its exits. *)
Lemma AddSession_spine (req : AddSessionRequest) (w : World) :
  AddSession s req w =
  if time.After (clock s (ticks w))
       (time.Unix (goint.to_int64 (req_ExpiryTimestampSeconds req)) 0)
  then Done (Err "expiry must be in the future") (ticked w)
  else
    match unmarshalRPCType (req_SessionType req) with
    | Err e => Done (Err e) (ticked w)
    | Ok typ =>
        if negb (typ =? TypeUIPassword) && negb (typ =? TypeMacaroonAdmin)
           && negb (typ =? TypeMacaroonReadonly)
        then Done (Err ("invalid session type, only UI password, admin and "
                        +:+ "readonly macaroon types supported in LiT"))
               (ticked w)
        else
          match session_entropy s (ticked w) with
          | Err e => Done (Err ("error creating new session: " +:+ e)) (ticked w)
          | Ok (secret, key, rootKey) =>
              let sess := new_session req typ secret key rootKey in
              let w1 := record (EvStoreSession sess) (ticked w) in
              match db_fault s w1 (OpStoreSession sess) with
              | Some e => Done (Err ("error storing session: " +:+ e)) w1
              | None =>
                  match resumeSession s sess
                          (set_store (<[key := sess]> (store w)) w1) with
                  | Done (Some e) w3 =>
                      Done (Err ("error starting session: " +:+ e)) w3
                  | Done None w3 =>
                      match marshalRPCSession s sess with
                      | Err e =>
                          Done (Err ("error marshaling session: " +:+ e)) w3
                      | Ok r => Done (Ok (mkAddSessionResponse r)) w3
                      end
                  | Panic msg w3 => Panic msg w3
                  end
              end
          end
    end.
Proof.
  unfold AddSession, bind at 1, time_Now. fold (ticked w).
  destruct (time.After _ _); [reflexivity |].
  destruct (unmarshalRPCType (req_SessionType req)) as [typ | e];
    [| reflexivity].
  destruct (negb (typ =? TypeUIPassword) && negb (typ =? TypeMacaroonAdmin)
            && negb (typ =? TypeMacaroonReadonly)); [reflexivity |].
  unfold bind at 1, session_NewSession.
  destruct (session_entropy s (ticked w)) as [[[secret key] rootKey] | e];
    [| reflexivity].
  fold (new_session req typ secret key rootKey). cbv zeta.
  unfold bind at 1, db_StoreSession, bind at 1, emit.
  destruct (db_fault s _ (OpStoreSession _)); [reflexivity |].
  unfold bind at 1.
  destruct (resumeSession s _ _) as [[e |] w3 | msg w3]; try reflexivity.
  destruct (marshalRPCSession s _); reflexivity.
Qed.

Lemma to_uint64_wraps (x y : Z) (k : Z) :
  goint.is_uint64 y -> x = y + k * 2 ^ 64 -> goint.to_uint64 x = y.
Proof.
  unfold goint.is_uint64, goint.to_uint64. intros Hy ->.
  rewrite Z_mod_plus_full, Z.mod_small by lia. reflexivity.
Qed.

(** The seconds of a request come back unchanged from the expiry built of
    them, whatever wrapping happened on the way. *)
Lemma wire_seconds_of_Unix (e : Z) :
  goint.is_uint64 e ->
  goint.to_uint64 (time.Time_Unix (time.Unix (goint.to_int64 e) 0)) = e.
Proof.
  intros He. rewrite Unix_whole_seconds. unfold time.Time_Unix. simpl.
  destruct (to_int64_range e) as [_ [k1 E1]].
  destruct (to_int64_range (goint.to_int64 e + time.unixToInternal))
    as [_ [k2 E2]].
  destruct (to_int64_range
              (goint.to_int64 (goint.to_int64 e + time.unixToInternal)
               - time.unixToInternal)) as [_ [k3 E3]].
  apply (to_uint64_wraps _ _ (k1 + k2 + k3)); [exact He |].
  rewrite E3, E2, E1. lia.
Qed.

Lemma marshal_after_unmarshal (r t : Z) :
  NoDup session_types -> unmarshalRPCType r = Ok t -> marshalRPCType t = Ok r.
Proof.
  intros Hs Hu. apply NoDup4 in Hs as (s1 & s2 & s3 & s4 & s5 & s6).
  unfold marshalRPCType.
  apply unmarshalRPCType_Ok_inv in Hu
    as [[-> ->] | [[-> ->] | [[-> ->] | [-> ->]]]];
    repeat match goal with
           | |- context [?a =? ?b] =>
               destruct (Z.eqb_spec a b); try congruence
           end.
Qed.

(** The type guard of [AddSession] lets exactly the three LiT types pass. *)
Lemma lit_guard_false (typ : Z) :
  negb (typ =? TypeUIPassword) && negb (typ =? TypeMacaroonAdmin)
  && negb (typ =? TypeMacaroonReadonly) = false ->
  typ = TypeUIPassword \/ typ = TypeMacaroonAdmin \/ typ = TypeMacaroonReadonly.
Proof.
  destruct (Z.eqb_spec typ TypeUIPassword); [auto |].
  destruct (Z.eqb_spec typ TypeMacaroonAdmin); [auto |].
  destruct (Z.eqb_spec typ TypeMacaroonReadonly); [auto |].
  discriminate.
Qed.

(** What a successful [AddSession] went through. *)
Lemma AddSession_Ok_inv (req : AddSessionRequest) (w w' : World)
    (resp : AddSessionResponse) :
  AddSession s req w = Done (Ok resp) w' ->
  exists typ secret key rootKey r,
    time.After (clock s (ticks w))
      (time.Unix (goint.to_int64 (req_ExpiryTimestampSeconds req)) 0) = false
    /\ unmarshalRPCType (req_SessionType req) = Ok typ
    /\ (typ = TypeUIPassword \/ typ = TypeMacaroonAdmin
        \/ typ = TypeMacaroonReadonly)
    /\ marshalRPCSession s (new_session req typ secret key rootKey) = Ok r
    /\ resp = mkAddSessionResponse r
    /\ (store w' = <[key := new_session req typ secret key rootKey]> (store w)
        \/ store w' = <[key := withState StateRevoked
                                 (new_session req typ secret key rootKey)]>
                        (store w)).
Proof.
  rewrite AddSession_spine.
  destruct (time.After _ _) eqn:Hafter; [discriminate |].
  destruct (unmarshalRPCType (req_SessionType req)) as [typ | e] eqn:Hun;
    [| discriminate].
  destruct (negb (typ =? TypeUIPassword) && negb (typ =? TypeMacaroonAdmin)
            && negb (typ =? TypeMacaroonReadonly)) eqn:Hguard; [discriminate |].
  destruct (session_entropy s (ticked w)) as [[[secret key] rootKey] | e];
    [| discriminate].
  cbv zeta.
  set (sess := new_session req typ secret key rootKey).
  destruct (db_fault s _ (OpStoreSession sess)); [discriminate |].
  set (w2 := set_store (<[key := sess]> (store w))
               (record (EvStoreSession sess) (ticked w))).
  destruct (resumeSession_outcome sess w2)
    as (r0 & w3 & evs & Hrun & _ & _ & Hstore & _).
  rewrite Hrun. destruct r0 as [e |]; [discriminate |].
  destruct (marshalRPCSession s sess) as [r | e] eqn:Hm; [| discriminate].
  intros E. inversion E; subst resp w3; clear E.
  exists typ, secret, key, rootKey, r.
  split; [reflexivity |]. split; [reflexivity |].
  split; [apply lit_guard_false; exact Hguard |].
  split; [exact Hm |]. split; [reflexivity |].
  change (store w2) with (<[key := sess]> (store w)) in Hstore.
  change (LocalPublicKey sess) with key in Hstore.
  destruct Hstore as [-> | (stored & Hget & ->)]; [left; reflexivity |].
  right. rewrite lookup_insert_eq in Hget. inversion Hget; subst stored.
  apply insert_insert_eq.
Qed.

(** X9. A request whose wire type is not UI_PASSWORD, MACAROON_ADMIN or
    MACAROON_READONLY is refused before anything is built: the call returns
    the expiry error, the unknown-type error or the invalid-type error, in
    this order of precedence, and the world only differs by the clock
    reading. *)
Theorem AddSession_rejects_other_types (req : AddSessionRequest) (w : World) :
  NoDup session_types ->
  ~ In (req_SessionType req) lit_rpc_types ->
  AddSession s req w =
    Done (Err (if time.After (clock s (ticks w))
                    (time.Unix (goint.to_int64 (req_ExpiryTimestampSeconds req)) 0)
               then "expiry must be in the future"
               else
                 match unmarshalRPCType (req_SessionType req) with
                 | Err e => e
                 | Ok _ =>
                     "invalid session type, only UI password, admin and "
                     +:+ "readonly macaroon types supported in LiT"
                 end))
      (ticked w)
  /\ store (ticked w) = store w
  /\ trace (ticked w) = trace w
  /\ watchers (ticked w) = watchers w.
Proof.
  intros Hnd Hty. split; [| repeat split].
  rewrite AddSession_spine.
  destruct (time.After _ _); [reflexivity |].
  destruct (unmarshalRPCType (req_SessionType req)) as [typ | e] eqn:Hun;
    [| reflexivity].
  apply NoDup4 in Hnd as (s1 & s2 & s3 & s4 & s5 & s6).
  unfold lit_rpc_types in Hty. simpl in Hty.
  apply unmarshalRPCType_Ok_inv in Hun
    as [[E ->] | [[E ->] | [[E ->] | [E ->]]]];
    try (exfalso; apply Hty; rewrite E; tauto).
  rewrite (proj2 (Z.eqb_neq _ _) s6).
  rewrite (proj2 (Z.eqb_neq _ _) (not_eq_sym s4)).
  rewrite (proj2 (Z.eqb_neq _ _) (not_eq_sym s2)).
  reflexivity.
Qed.

(** X10. A response of [AddSession] repeats the request: label, type,
    expiry seconds, address and dev flag are those asked for, and the type is
    one of the three LiT types.  The session is in the store under the key
    the response carries, with the requested expiry. *)
Theorem AddSession_response_repeats_request
    (req : AddSessionRequest) (w w' : World) (resp : AddSessionResponse) :
  NoDup session_types ->
  goint.is_uint64 (req_ExpiryTimestampSeconds req) ->
  AddSession s req w = Done (Ok resp) w' ->
  rpc_Label (resp_Session resp) = req_Label req
  /\ rpc_SessionType (resp_Session resp) = req_SessionType req
  /\ In (req_SessionType req) lit_rpc_types
  /\ rpc_ExpiryTimestampSeconds (resp_Session resp)
     = req_ExpiryTimestampSeconds req
  /\ rpc_MailboxServerAddr (resp_Session resp) = req_MailboxServerAddr req
  /\ rpc_DevServer (resp_Session resp) = req_DevServer req
  /\ exists key stored,
       rpc_LocalPublicKey (resp_Session resp) = SerializeCompressed s key
       /\ store w' !! key = Some stored
       /\ LocalPublicKey stored = key
       /\ Expiry stored
          = time.Unix (goint.to_int64 (req_ExpiryTimestampSeconds req)) 0.
Proof.
  intros Hnd He Hrun.
  destruct (AddSession_Ok_inv req w w' resp Hrun)
    as (typ & secret & key & rootKey & r & _ & Hun & Hlit & Hm & -> & Hstore).
  pose proof (marshal_after_unmarshal _ _ Hnd Hun) as Hty.
  unfold marshalRPCSession in Hm.
  change (State (new_session req typ secret key rootKey))
    with StateCreated in Hm.
  change (Type' (new_session req typ secret key rootKey)) with typ in Hm.
  assert (Hst : marshalRPCState StateCreated = Ok SessionState_STATE_CREATED).
  { unfold marshalRPCState. rewrite Z.eqb_refl. reflexivity. }
  rewrite Hst, Hty in Hm.
  destruct (PassphraseEntropyToMnemonic s _); [| discriminate].
  inversion Hm; subst r; clear Hm. simpl.
  split; [reflexivity |]. split; [reflexivity |].
  split.
  { apply NoDup4 in Hnd as (s1 & s2 & s3 & s4 & s5 & s6).
    unfold lit_rpc_types. simpl.
    apply unmarshalRPCType_Ok_inv in Hun
      as [[E Et] | [[E Et] | [[E Et] | [E Et]]]]; rewrite E; auto.
    exfalso. subst typ. destruct Hlit as [E' | [E' | E']]; congruence. }
  split; [apply wire_seconds_of_Unix; exact He |].
  split; [reflexivity |]. split; [reflexivity |].
  exists key.
  destruct Hstore as [-> | ->]; eexists;
    (split; [reflexivity |]); (split; [apply lookup_insert_eq |]);
    split; reflexivity.
Qed.

(** X11. The path of a UI_PASSWORD request that passes the checks: the
    session is stored first and started second.  If the tunnel refuses to
    start, the call fails with the start error although the session stays in
    the store, with no watcher; if the tunnel starts, the call returns with
    one more watcher, which holds the session and the channel of the
    tunnel. *)
Theorem AddSession_password_session
    (req : AddSessionRequest) (w : World) (secret : list Z) (key rootKey : Z) :
  NoDup rpc_types ->
  req_SessionType req = SessionType_TYPE_UI_PASSWORD ->
  time.After (clock s (ticks w))
    (time.Unix (goint.to_int64 (req_ExpiryTimestampSeconds req)) 0) = false ->
  time.Before (time.Unix (goint.to_int64 (req_ExpiryTimestampSeconds req)) 0)
    (clock s (S (ticks w))) = false ->
  session_entropy s (ticked w) = Ok (secret, key, rootKey) ->
  let sess := new_session req TypeUIPassword secret key rootKey in
  let w1 := record (EvStoreSession sess) (ticked w) in
  db_fault s w1 (OpStoreSession sess) = None ->
  let auth := "Authorization: Basic " +:+ basicAuth s in
  let w2 := record (EvStartSession sess auth)
              (ticked (set_store (<[key := sess]> (store w)) w1)) in
  store w2 !! key = Some sess
  /\ match StartSession_result s w2 sess auth with
     | Err e =>
         AddSession s req w
         = Done (Err ("error starting session: " +:+ e)) w2
         /\ watchers w2 = watchers w
     | Ok c =>
         exists r,
           AddSession s req w
           = Done r
               (set_watchers (watchers w ++ [mkWatcher sess c])
                  (record (EvGo (mkWatcher sess c)) w2))
     end.
Proof.
  intros Hnd Hty Hafter Hbefore Hent sess w1 Hdb auth w2.
  split; [apply lookup_insert_eq |].
  apply NoDup4 in Hnd as (r1 & r2 & r3 & r4 & r5 & r6).
  assert (Hun : unmarshalRPCType (req_SessionType req) = Ok TypeUIPassword).
  { unfold unmarshalRPCType. rewrite Hty.
    rewrite (proj2 (Z.eqb_neq _ _) (not_eq_sym r3)).
    rewrite (proj2 (Z.eqb_neq _ _) (not_eq_sym r5)).
    rewrite (proj2 (Z.eqb_neq _ _) (not_eq_sym r6)).
    rewrite Z.eqb_refl. reflexivity. }
  assert (Hres :
    resumeSession s sess (set_store (<[key := sess]> (store w)) w1) =
    match StartSession_result s w2 sess auth with
    | Ok c =>
        Done None
          (set_watchers (watchers w ++ [mkWatcher sess c])
             (record (EvGo (mkWatcher sess c)) w2))
    | Err e => Done (Some e) w2
    end).
  { unfold resumeSession.
    change (State sess) with StateCreated. rewrite Z.eqb_refl.
    rewrite andb_false_r.
    unfold bind at 1, time_Now.
    change (Expiry sess)
      with (time.Unix (goint.to_int64 (req_ExpiryTimestampSeconds req)) 0).
    change (ticks (set_store (<[key := sess]> (store w)) w1))
      with (S (ticks w)).
    rewrite Hbefore.
    change (Type' sess) with TypeUIPassword. rewrite Z.eqb_refl.
    unfold bind at 1, sessionServer_StartSession, bind at 1, emit.
    fold auth.
    change (record (EvStartSession sess auth)
              (set_ticks (S (S (ticks w)))
                 (set_store (<[key := sess]> (store w)) w1))) with w2.
    destruct (StartSession_result s w2 sess auth); reflexivity. }
  rewrite AddSession_spine, Hafter, Hun, Z.eqb_refl. simpl negb.
  rewrite andb_false_l. rewrite Hent. cbv zeta.
  fold sess. fold w1. rewrite Hdb, Hres.
  destruct (StartSession_result s w2 sess auth) as [c | e].
  - destruct (marshalRPCSession s sess); eexists; reflexivity.
  - split; reflexivity.
Qed.

(** X12. Whatever the request and whatever the collaborators answer,
    [AddSession] returns; it asks the store to keep at most one session, a
    Created session of one of the three LiT types with the requested expiry,
    and does so before any other call; it calls [StartSession] at most once
    and never after a refusal of the store; and it registers at most one
    watcher, for that session. *)
Theorem AddSession_stores_before_starting
    (req : AddSessionRequest) (w : World) :
  exists r w' evs,
    AddSession s req w = Done r w'
    /\ trace w' = trace w ++ evs
    /\ ((evs = [] /\ is_ok r = false
         /\ store w' = store w /\ watchers w' = watchers w)
        \/ exists sess rest,
             evs = EvStoreSession sess :: rest
             /\ State sess = StateCreated
             /\ (Type' sess = TypeUIPassword \/ Type' sess = TypeMacaroonAdmin
                 \/ Type' sess = TypeMacaroonReadonly)
             /\ Expiry sess
                = time.Unix (goint.to_int64 (req_ExpiryTimestampSeconds req)) 0
             /\ count is_store_session rest = 0%nat
             /\ (count is_start rest <= 1)%nat
             /\ ((rest = [] /\ is_ok r = false
                  /\ store w' = store w /\ watchers w' = watchers w)
                 \/ ((store w' = <[LocalPublicKey sess := sess]> (store w)
                      \/ store w'
                         = <[LocalPublicKey sess := withState StateRevoked sess]>
                             (store w))
                     /\ (watchers w' = watchers w
                         \/ exists c,
                              watchers w' = watchers w ++ [mkWatcher sess c])))).
Proof.
  rewrite AddSession_spine.
  destruct (time.After _ _);
    [exists (Err "expiry must be in the future"), (ticked w), [];
     split; [reflexivity |]; split; [symmetry; apply app_nil_r |];
     left; repeat split |].
  destruct (unmarshalRPCType (req_SessionType req)) as [typ | e];
    [| exists (Err e), (ticked w), [];
       split; [reflexivity |]; split; [symmetry; apply app_nil_r |];
       left; repeat split].
  destruct (negb (typ =? TypeUIPassword) && negb (typ =? TypeMacaroonAdmin)
            && negb (typ =? TypeMacaroonReadonly)) eqn:Hguard;
    [eexists _, (ticked w), [];
     split; [reflexivity |]; split; [symmetry; apply app_nil_r |];
     left; repeat split |].
  destruct (session_entropy s (ticked w)) as [[[secret key] rootKey] | e];
    [| eexists _, (ticked w), [];
       split; [reflexivity |]; split; [symmetry; apply app_nil_r |];
       left; repeat split].
  cbv zeta. set (sess := new_session req typ secret key rootKey).
  apply lit_guard_false in Hguard.
  destruct (db_fault s _ (OpStoreSession sess)).
  - eexists _, _, [EvStoreSession sess].
    split; [reflexivity |]. split; [reflexivity |].
    right. exists sess, []. split; [reflexivity |].
    split; [reflexivity |]. split; [exact Hguard |]. split; [reflexivity |].
    split; [reflexivity |]. split; [unfold count; simpl; lia |].
    left. repeat split.
  - set (w2 := set_store (<[key := sess]> (store w))
                 (record (EvStoreSession sess) (ticked w))).
    destruct (resumeSession_outcome sess w2)
      as (r0 & w3 & evs & Hrun & Htr & Hss & Hstore & Hcase).
    rewrite Hrun.
    assert (Hfinal : exists r,
              match r0 with
              | Some e => Done (Err ("error starting session: " +:+ e)) w3
              | None =>
                  match marshalRPCSession s sess with
                  | Ok r => Done (Ok (mkAddSessionResponse r)) w3
                  | Err e => Done (Err ("error marshaling session: " +:+ e)) w3
                  end
              end = Done r w3).
    { destruct r0; [eexists; reflexivity |].
      destruct (marshalRPCSession s sess); eexists; reflexivity. }
    destruct Hfinal as [r Hfinal]. rewrite Hfinal.
    exists r, w3, (EvStoreSession sess :: evs).
    split; [reflexivity |].
    split; [rewrite Htr; unfold w2; simpl; rewrite <- app_assoc; reflexivity |].
    right. exists sess, evs. split; [reflexivity |].
    split; [reflexivity |]. split; [exact Hguard |]. split; [reflexivity |].
    split; [exact Hss |].
    change (store w2) with (<[key := sess]> (store w)) in Hstore.
    change (LocalPublicKey sess) with key in *.
    change (watchers w2) with (watchers w) in Hcase.
    split.
    { destruct Hcase as [(pre & auth & c & _ & -> & Hps & _) | (_ & _ & Hle & _)];
        [| exact Hle].
      rewrite count_app, Hps. unfold count. simpl. lia. }
    right. split.
    + destruct Hstore as [-> | (stored & Hget & ->)]; [left; reflexivity |].
      right. rewrite lookup_insert_eq in Hget. inversion Hget; subst stored.
      apply insert_insert_eq.
    + destruct Hcase as [(pre & auth & c & _ & _ & _ & _ & Hws & _)
                        | (Hws & _)]; [right; exists c; exact Hws | left; exact Hws].
Qed.

(** *** More on shutdown *)

Lemma drain_on_quit (ws : list Watcher) (w : World) :
  (forall w0 wt, selected s w0 wt = OnQuit) ->
  exists w',
    drain s ws w = Done tt w'
    /\ store w' = store w
    /\ ticks w' = ticks w
    /\ calls (trace w') = calls (trace w)
    /\ watchers w' = remove_all ws (watchers w)
    /\ quit_closed w' = quit_closed w
    /\ stopOnce_done w' = stopOnce_done w.
Proof.
  intros Hsel. revert w. induction ws as [| wt ws IH]; intros w.
  - exists w. repeat split.
  - destruct (IH (exited wt w)) as (w' & Hrun & Hst & Htk & Hcl & Hws & Hq & Ho).
    exists w'. simpl. unfold bind. rewrite Hsel.
    change (watcher s wt OnQuit w) with (Done tt (exited wt w)).
    split; [exact Hrun |]. split; [exact Hst |]. split; [exact Htk |].
    split.
    { rewrite Hcl. unfold exited, calls, record. simpl.
      rewrite List.filter_app. simpl. apply app_nil_r. }
    split; [exact Hws |]. split; [exact Hq | exact Ho].
Qed.

(** X13. When every watcher leaves through the quit case, a first [stop]
    empties the wait group without any call to the store, the tunnel or the
    baker: the sessions stay in the store as they were. *)
Theorem stop_through_quit_mutates_nothing (w : World) :
  (forall w0 wt, selected s w0 wt = OnQuit) ->
  stopOnce_done w = false ->
  quit_closed w = false ->
  exists w',
    stop s w = Done tt w'
    /\ store w' = store w
    /\ calls (trace w') = calls (trace w)
    /\ watchers w' = []
    /\ quit_closed w' = true.
Proof.
  intros Hsel Honce Hquit.
  set (w1 := record EvWgWait (set_quit_closed true (record EvCloseQuit w))).
  destruct (drain_on_quit (watchers w) w1 Hsel)
    as (w2 & Hrun & Hst & _ & Hcl & Hws & Hq & _).
  exists (set_stopOnce_done true w2).
  split.
  { unfold stop, stopOnce_Do. rewrite Honce.
    unfold bind at 1, close_quit. rewrite Hquit.
    unfold wg_Wait, bind at 1, emit. fold w1.
    change (watchers w1) with (watchers w). rewrite Hrun. reflexivity. }
  split; [exact Hst |].
  split.
  { simpl. rewrite Hcl. unfold w1, calls, record. simpl.
    rewrite !List.filter_app. simpl. rewrite !app_nil_r. reflexivity. }
  split; [simpl; rewrite Hws; apply remove_all_self |].
  exact Hq.
Qed.

(** *** Adding, then revoking *)

(** X14. A session that [AddSession] answered with can be revoked through
    the key of the response: provided the key bytes parse back and the store
    accepts the revoke, [RevokeSession] succeeds, the store holds the session
    in state Revoked, and the tunnel is asked to stop it. *)
Theorem RevokeSession_after_AddSession
    (req : AddSessionRequest) (w w1 : World) (resp : AddSessionResponse) :
  (forall k, ParsePubKey s (SerializeCompressed s k) = Ok k) ->
  (forall w0 k, db_fault s w0 (OpRevokeSession k) = None) ->
  AddSession s req w = Done (Ok resp) w1 ->
  exists key w2 evs,
    rpc_LocalPublicKey (resp_Session resp) = SerializeCompressed s key
    /\ RevokeSession s
         (mkRevokeSessionRequest (rpc_LocalPublicKey (resp_Session resp))) w1
       = Done (Ok mkRevokeSessionResponse) w2
    /\ State <$> store w2 !! key = Some StateRevoked
    /\ trace w2 = trace w1 ++ evs
    /\ calls evs = [EvRevokeSession key; EvStopSession key].
Proof.
  intros Hparse Hdb Hrun.
  destruct (AddSession_Ok_inv req w w1 resp Hrun)
    as (typ & secret & key & rootKey & r & _ & _ & _ & Hm & -> & Hstore).
  set (sess := new_session req typ secret key rootKey) in *.
  assert (Hkey : rpc_LocalPublicKey r = SerializeCompressed s key).
  { unfold marshalRPCSession in Hm.
    destruct (marshalRPCState _); [| discriminate].
    destruct (marshalRPCType _); [| discriminate].
    destruct (PassphraseEntropyToMnemonic s _); [| discriminate].
    inversion Hm. reflexivity. }
  assert (Hget : exists stored, store w1 !! key = Some stored).
  { destruct Hstore as [-> | ->]; eexists; apply lookup_insert_eq. }
  destruct Hget as [stored Hget].
  exists key. cbn [resp_Session]. rewrite Hkey.
  unfold RevokeSession. cbn [req_LocalPublicKey]. rewrite Hparse.
  cbv beta iota zeta delta [bind ret emit log_Debugf
                            sessionServer_StopSession db_RevokeSession].
  rewrite Hdb. cbn [store record set_trace]. rewrite Hget.
  destruct (StopSession_result s _ key);
    eexists _, _; (split; [reflexivity |]); (split; [reflexivity |]);
    (split; [cbn [store record set_trace set_store];
             rewrite lookup_insert_eq; reflexivity |]);
    (split; [cbn [trace record set_trace set_store];
             rewrite <- ?app_assoc; reflexivity |]); reflexivity.
Qed.

(** *** The life of a server *)

(** One call, or one step of a watcher, from a state in which the quit
    channel is closed exactly when [stop] has run. *)
Lemma perform_step (c : Call) (w : World) :
  quit_closed w = stopOnce_done w ->
  exists w1,
    perform s c w = Done tt w1
    /\ quit_closed w1 = stopOnce_done w1
    /\ (stopOnce_done w1 = true <-> stopOnce_done w = true \/ c = CallStop).
Proof.
  intros Hinv.
  assert (Hkept : forall m : M unit, keeps_gate m -> c <> CallStop ->
            exists w1, m w = Done tt w1
              /\ quit_closed w1 = stopOnce_done w1
              /\ (stopOnce_done w1 = true <->
                  stopOnce_done w = true \/ c = CallStop)).
  { intros m Hm Hc. destruct (Hm w) as ([] & w1 & Hrun & Hq & Ho).
    exists w1. split; [exact Hrun |]. split; [congruence |].
    rewrite Ho. tauto. }
  destruct c as [req | sess | req | | wt trig]; simpl.
  - apply Hkept; [| discriminate]. apply keeps_gate_bind;
      [apply keeps_gate_AddSession | intros; apply keeps_gate_ret].
  - apply Hkept; [| discriminate]. apply keeps_gate_bind;
      [apply keeps_gate_resumeSession | intros; apply keeps_gate_ret].
  - apply Hkept; [| discriminate]. apply keeps_gate_bind;
      [apply keeps_gate_RevokeSession | intros; apply keeps_gate_ret].
  - destruct (stopOnce_done w) eqn:Honce.
    + exists w. rewrite stop_again by assumption.
      split; [reflexivity |]. split; [congruence |]. rewrite Honce. tauto.
    + destruct (stop_first w Honce Hinv) as (w1 & Hrun & Ho & Hq & _).
      exists w1. split; [exact Hrun |]. split; [congruence |].
      rewrite Ho. tauto.
  - apply Hkept; [apply keeps_gate_watcher | discriminate].
Qed.

(** X15. No call closes the quit channel twice, the one panic the code can
    raise by itself.  From a state in which the quit channel is closed
    exactly when [stop] has run, as in a new server, any sequence of
    AddSession, resumeSession, RevokeSession and stop calls and of watcher
    steps returns; in the state it ends in, the quit channel is again closed
    exactly when [stop] has run, and [stop] has run exactly when it had
    before or was called in the sequence. *)
Theorem server_never_panics (cs : list Call) (w : World) :
  quit_closed w = stopOnce_done w ->
  exists w',
    perform_all s cs w = Done tt w'
    /\ quit_closed w' = stopOnce_done w'
    /\ (stopOnce_done w' = true <-> stopOnce_done w = true \/ In CallStop cs).
Proof.
  revert w. induction cs as [| c cs IH]; intros w Hinv.
  - exists w. split; [reflexivity |]. split; [exact Hinv |]. simpl. tauto.
  - destruct (perform_step c w Hinv) as (w1 & Hrun & Hinv1 & Hstop1).
    destruct (IH w1 Hinv1) as (w' & Hrun' & Hinv' & Hstop').
    exists w'. split; [simpl; unfold bind; rewrite Hrun; exact Hrun' |].
    split; [exact Hinv' |].
    rewrite Hstop', Hstop1. simpl. intuition.
Qed.

(** *** Adding, then listing *)

(** X16. A session that [AddSession] answered with shows in the next
    listing: when [ListSessions] succeeds in the state [AddSession] left,
    its response has an entry with the key, the label, the type and the
    expiry seconds of the response of [AddSession]. *)
Theorem ListSessions_shows_added_session
    (fault : World -> option string) (req : AddSessionRequest)
    (w w1 w2 : World) (resp : AddSessionResponse)
    (listing : ListSessionsResponse) :
  AddSession s req w = Done (Ok resp) w1 ->
  ListSessions s fault w1 = Done (Ok listing) w2 ->
  exists entry,
    In (Some entry) (resp_Sessions listing)
    /\ rpc_LocalPublicKey entry = rpc_LocalPublicKey (resp_Session resp)
    /\ rpc_Label entry = rpc_Label (resp_Session resp)
    /\ rpc_SessionType entry = rpc_SessionType (resp_Session resp)
    /\ rpc_ExpiryTimestampSeconds entry
       = rpc_ExpiryTimestampSeconds (resp_Session resp).
Proof.
  intros Hadd Hlist.
  destruct (AddSession_Ok_inv req w w1 resp Hadd)
    as (typ & secret & key & rootKey & r & _ & _ & _ & Hm & -> & Hstore).
  set (sess := new_session req typ secret key rootKey) in *.
  assert (Hget : exists stored,
            store w1 !! key = Some stored
            /\ (stored = sess \/ stored = withState StateRevoked sess)).
  { destruct Hstore as [-> | ->]; eexists;
      (split; [apply lookup_insert_eq | auto]). }
  destruct Hget as (stored & Hget & Hstored).
  unfold ListSessions, bind, db_ListSessions in Hlist.
  destruct (fault w1); [discriminate |].
  destruct (marshal_range_spec ((map_to_list (store w1)).*2) [])
    as [(rs & Hall & Hrun) | (before & bad & after & e & _ & _ & _ & Hrun)];
    simpl in Hrun; rewrite Hrun in Hlist; [| discriminate].
  inversion Hlist; subst listing w2; clear Hlist.
  assert (Hin : stored ∈ (map_to_list (store w1)).*2).
  { apply list_elem_of_fmap. exists (key, stored). split; [reflexivity |].
    apply elem_of_map_to_list. exact Hget. }
  apply list_elem_of_lookup in Hin as [i Hi].
  destruct (Forall2_lookup_l _ _ _ _ _ Hall Hi) as (entry & Hentry & Hme).
  exists entry. split.
  { simpl. apply list_elem_of_In, list_elem_of_fmap.
    exists entry. split; [reflexivity |].
    apply list_elem_of_lookup. exists i. exact Hentry. }
  assert (Hfields : forall x y,
            marshalRPCSession s x = Ok y ->
            rpc_LocalPublicKey y = SerializeCompressed s (LocalPublicKey x)
            /\ rpc_Label y = Label x
            /\ marshalRPCType (Type' x) = Ok (rpc_SessionType y)
            /\ rpc_ExpiryTimestampSeconds y
               = goint.to_uint64 (time.Time_Unix (Expiry x))).
  { intros x y Hxy. unfold marshalRPCSession in Hxy.
    destruct (marshalRPCState _); [| discriminate].
    destruct (marshalRPCType _); [| discriminate].
    destruct (PassphraseEntropyToMnemonic s _); [| discriminate].
    inversion Hxy. simpl. auto. }
  destruct (Hfields _ _ Hm) as (Hk1 & Hl1 & Ht1 & He1).
  destruct (Hfields _ _ Hme) as (Hk2 & Hl2 & Ht2 & He2).
  simpl resp_Session.
  assert (Hsame : LocalPublicKey stored = LocalPublicKey sess
                  /\ Label stored = Label sess
                  /\ Type' stored = Type' sess
                  /\ Expiry stored = Expiry sess).
  { destruct Hstored as [-> | ->]; repeat split. }
  destruct Hsame as (Ek & El & Et & Ee).
  rewrite Hk2, Hl2, He2, Hk1, Hl1, He1, Ek, El, Ee.
  repeat split. rewrite Et in Ht2. congruence.
Qed.

(** *** The window of accepted expiries *)


End Properties.

(** ** The properties at concrete inputs *)

#[local] Existing Instance sample.enums.

Ltac by_computation :=
  vm_compute; repeat split; first [reflexivity | discriminate | exact I].

Ltac decide_by_computation :=
  apply (bool_decide_unpack _); vm_compute; exact I.

Lemma sample_types_distinct : NoDup session_types /\ NoDup rpc_types.
Proof. split; decide_by_computation. Defined.

(** The round trip of C9 with the sample constants. *)
Lemma type_translation_roundtrip_witness :
  NoDup session_types /\ NoDup rpc_types
  /\ (forall t, In t session_types ->
        exists r, marshalRPCType t = Ok r /\ unmarshalRPCType r = Ok t)
  /\ (forall t, ~ In t session_types ->
        marshalRPCType t = Err ("unknown type <" +:+ pretty t +:+ ">"))
  /\ (forall r, ~ In r rpc_types ->
        unmarshalRPCType r = Err ("unknown type <" +:+ pretty r +:+ ">")).
Proof.
  destruct sample_types_distinct as [Hs Hr].
  split; [exact Hs |]. split; [exact Hr |].
  exact (type_translation_roundtrip Hs Hr).
Defined.

(** C2 at a revoked session. *)
Lemma resumeSession_skips_terminal_states_witness :
  State sample.revoked_session <> StateCreated
  /\ State sample.revoked_session <> StateInUse
  /\ resumeSession sample.env_ok sample.revoked_session
       (sample.world [sample.revoked_session])
     = Done None
         (record (EvLog "Not resuming session %x with state %d")
            (sample.world [sample.revoked_session])).
Proof.
  assert (Hc : State sample.revoked_session <> StateCreated) by by_computation.
  assert (Hu : State sample.revoked_session <> StateInUse) by by_computation.
  split; [exact Hc |]. split; [exact Hu |].
  destruct (resumeSession_skips_terminal_states sample.env_ok
              sample.revoked_session (sample.world [sample.revoked_session])
              Hc Hu) as (w' & Hrun & Hw & _).
  rewrite Hrun, Hw. reflexivity.
Defined.

(** C1 as stated fails on a session whose expiry is the very instant the
    clock reads: the expiry is not after the current time, yet the session is
    started, a watcher is spawned and the stored record stays Created. *)
Lemma resumeSession_starts_session_expiring_now :
  State sample.expiring_now = StateCreated
  /\ time.nanos (Expiry sample.expiring_now) <= time.nanos (clock sample.env_ok 0)
  /\ outcome_value (resumeSession sample.env_ok sample.expiring_now
                      (sample.world [sample.expiring_now])) = Some None
  /\ State <$> store (outcome_world
                        (resumeSession sample.env_ok sample.expiring_now
                           (sample.world [sample.expiring_now]))) !! 5
     = Some StateCreated
  /\ watchers (outcome_world
                 (resumeSession sample.env_ok sample.expiring_now
                    (sample.world [sample.expiring_now])))
     = [mkWatcher sample.expiring_now 1]
  /\ calls (trace (outcome_world
                     (resumeSession sample.env_ok sample.expiring_now
                        (sample.world [sample.expiring_now]))))
     = [EvStartSession sample.expiring_now "Authorization: Basic dXNlcjpwYXNz"].
Proof. by_computation. Qed.

(** The amended C1 at a session that expired ten seconds ago. *)
Lemma resumeSession_revokes_expired_witness :
  (State sample.expired_session = StateCreated
   \/ State sample.expired_session = StateInUse)
  /\ time.wf (Expiry sample.expired_session)
  /\ time.wf (clock sample.env_ok 0)
  /\ time.nanos (Expiry sample.expired_session) < time.nanos (clock sample.env_ok 0)
  /\ outcome_value (resumeSession sample.env_ok sample.expired_session
                      (sample.world [sample.expired_session])) = Some None
  /\ State <$> store (outcome_world
                        (resumeSession sample.env_ok sample.expired_session
                           (sample.world [sample.expired_session]))) !! 5
     = Some StateRevoked.
Proof.
  assert (Hst : State sample.expired_session = StateCreated
                \/ State sample.expired_session = StateInUse)
    by (left; reflexivity).
  assert (Hwe : time.wf (Expiry sample.expired_session)) by by_computation.
  assert (Hwn : time.wf (clock sample.env_ok 0)) by by_computation.
  assert (Hlt : time.nanos (Expiry sample.expired_session)
                < time.nanos (clock sample.env_ok 0)) by by_computation.
  split; [exact Hst |]. split; [exact Hwe |]. split; [exact Hwn |].
  split; [exact Hlt |].
  destruct (resumeSession_revokes_expired sample.env_ok sample.expired_session
              (sample.world [sample.expired_session]) Hst Hwe Hwn Hlt)
    as (r & w' & Hrun & _ & _ & Hcase).
  rewrite Hrun. simpl.
  remember (store w') as stored eqn:Hstored in *.
  vm_compute in Hcase. destruct Hcase as [Hr Hcase].
  rewrite Hr, Hcase. split; reflexivity.
Defined.

(** C5 as stated fails on a stored MacaroonCustom session, Created, expiring
    in an hour: it reaches credential construction and the call returns no
    error. *)
Lemma resumeSession_custom_type_returns_no_error :
  reaches_credentials sample.custom_session (clock sample.env_ok 0)
  /\ Type' sample.custom_session = TypeMacaroonCustom
  /\ outcome_value (resumeSession sample.env_ok sample.custom_session
                      (sample.world [sample.custom_session])) = Some None.
Proof.
  split; [split; [left; reflexivity | reflexivity] |].
  split; reflexivity.
Qed.

(** The amended C5 at that session. *)
Lemma resumeSession_skips_other_types_witness :
  reaches_credentials sample.custom_session (clock sample.env_ok 0)
  /\ Type' sample.custom_session <> TypeUIPassword
  /\ Type' sample.custom_session <> TypeMacaroonAdmin
  /\ Type' sample.custom_session <> TypeMacaroonReadonly
  /\ resumeSession sample.env_ok sample.custom_session
       (sample.world [sample.custom_session])
     = Done None
         (record (EvLog "Not resuming session %x with type %d")
            (ticked (sample.world [sample.custom_session]))).
Proof.
  assert (Hreach : reaches_credentials sample.custom_session (clock sample.env_ok 0))
    by (split; [left; reflexivity | reflexivity]).
  assert (Hp : Type' sample.custom_session <> TypeUIPassword) by by_computation.
  assert (Ha : Type' sample.custom_session <> TypeMacaroonAdmin) by by_computation.
  assert (Hr : Type' sample.custom_session <> TypeMacaroonReadonly) by by_computation.
  split; [exact Hreach |]. split; [exact Hp |]. split; [exact Ha |].
  split; [exact Hr |].
  destruct (resumeSession_skips_other_types sample.env_ok sample.custom_session
              (sample.world [sample.custom_session]) Hreach Hp Ha Hr)
    as (w' & Hrun & Hw & _).
  rewrite Hrun, Hw. reflexivity.
Defined.

(** C7 at an admin session whose macaroon cannot be baked. *)
Lemma resumeSession_soft_skip_on_bake_failure_witness :
  NoDup session_types
  /\ reaches_credentials sample.admin_session (clock sample.env_failing 0)
  /\ (Type' sample.admin_session = TypeMacaroonAdmin
      \/ Type' sample.admin_session = TypeMacaroonReadonly)
  /\ superMacBaker sample.env_failing
       (record (EvBake 42 (GetAllPermissions sample.env_failing false))
          (ticked (sample.world [sample.admin_session])))
       42 (GetAllPermissions sample.env_failing false)
     = Err "macaroon service not yet ready"
  /\ outcome_value (resumeSession sample.env_failing sample.admin_session
                      (sample.world [sample.admin_session])) = Some None
  /\ trace (outcome_world
              (resumeSession sample.env_failing sample.admin_session
                 (sample.world [sample.admin_session])))
     = [EvBake 42 [("info", "read"); ("info", "write")];
        EvLog "Not resuming session %x. Could not bakethe necessary macaroon: %w"].
Proof.
  assert (Hreach : reaches_credentials sample.admin_session
                     (clock sample.env_failing 0))
    by (split; [left; reflexivity | reflexivity]).
  assert (Hty : Type' sample.admin_session = TypeMacaroonAdmin
                \/ Type' sample.admin_session = TypeMacaroonReadonly)
    by (left; reflexivity).
  split; [exact (proj1 sample_types_distinct) |].
  split; [exact Hreach |]. split; [exact Hty |]. split; [reflexivity |].
  destruct (resumeSession_soft_skip_on_bake_failure sample.env_failing
              sample.admin_session (sample.world [sample.admin_session])
              "macaroon service not yet ready"
              (proj1 sample_types_distinct) Hreach Hty eq_refl)
    as (w' & Hrun & Htr & _).
  rewrite Hrun. simpl. rewrite Htr. split; reflexivity.
Defined.

(** C8 at a stored key, with a store and a tunnel that answer. *)
Lemma RevokeSession_store_first_witness :
  ParsePubKey sample.env_ok (req_LocalPublicKey (mkRevokeSessionRequest [5])) = Ok 5
  /\ outcome_value (RevokeSession sample.env_ok (mkRevokeSessionRequest [5])
                      (sample.world [sample.password_session]))
     = Some (Ok mkRevokeSessionResponse)
  /\ trace (outcome_world
              (RevokeSession sample.env_ok (mkRevokeSessionRequest [5])
                 (sample.world [sample.password_session])))
     = [EvRevokeSession 5; EvStopSession 5].
Proof.
  split; [reflexivity |].
  pose proof (RevokeSession_store_first sample.env_ok (mkRevokeSessionRequest [5])
                5 (sample.world [sample.password_session]) eq_refl) as Hrun.
  remember (RevokeSession sample.env_ok (mkRevokeSessionRequest [5])
              (sample.world [sample.password_session])) as run eqn:Erun in *.
  vm_compute in Hrun. rewrite Hrun. split; reflexivity.
Defined.

(** C4 at a server that watches one session. *)
Lemma stop_idempotent_witness :
  gate_inv sample.watching
  /\ stop_times sample.env_ok 2 sample.watching = stop sample.env_ok sample.watching
  /\ outcome_value (stop sample.env_ok sample.watching) = Some tt
  /\ watchers (outcome_world (stop sample.env_ok sample.watching)) = [].
Proof.
  assert (Hinv : gate_inv sample.watching) by (intros _; reflexivity).
  split; [exact Hinv |].
  destruct (stop_idempotent sample.env_ok sample.watching 0 Hinv)
    as (w' & Hstop & Htimes & _ & _ & _ & Hfresh).
  destruct (Hfresh eq_refl) as (_ & Hws & _).
  rewrite Htimes, Hstop. simpl. rewrite Hws. repeat split.
Defined.



(** C10 at the smallest wrapping expiry, 2^63 seconds. *)
Lemma AddSession_rejects_wrapped_expiry_witness :
  2 ^ 63 <= req_ExpiryTimestampSeconds (sample.request 3 (2 ^ 63)) < 2 ^ 64
  /\ time.unixToInternal <= time.sec (clock sample.env_ok 0)
  /\ goint.to_int64 (req_ExpiryTimestampSeconds (sample.request 3 (2 ^ 63))) < 0
  /\ AddSession sample.env_ok (sample.request 3 (2 ^ 63)) (sample.world [])
     = Done (Err "expiry must be in the future") (ticked (sample.world [])).
Proof.
  assert (He : 2 ^ 63 <= req_ExpiryTimestampSeconds (sample.request 3 (2 ^ 63))
               < 2 ^ 64) by by_computation.
  assert (Hnow : time.unixToInternal
                 <= time.sec (clock sample.env_ok (ticks (sample.world []))))
    by by_computation.
  split; [exact He |]. split; [exact Hnow |].
  destruct (AddSession_rejects_wrapped_expiry sample.env_ok
              (sample.request 3 (2 ^ 63)) (sample.world []) He Hnow)
    as (Hneg & Hrun & _).
  split; [exact Hneg | exact Hrun].
Defined.

(** ** More properties at concrete inputs *)

Lemma sample_states_distinct : NoDup session_states /\ NoDup rpc_states.
Proof. split; decide_by_computation. Defined.

(** X1 with the sample constants. *)
Lemma marshalRPCState_known_and_injective_witness :
  NoDup session_states /\ NoDup rpc_states
  /\ marshalRPCState StateRevoked = Ok SessionState_STATE_REVOKED
  /\ (forall a b r,
        marshalRPCState a = Ok r -> marshalRPCState b = Ok r -> a = b).
Proof.
  destruct sample_states_distinct as [Hs Hr].
  split; [exact Hs |]. split; [exact Hr |].
  destruct (marshalRPCState_known_and_injective Hs Hr)
    as (_ & _ & Hrev & _ & Hinj & _).
  split; [exact Hrev | exact Hinj].
Defined.

(** X2 at the password session of the samples. *)
Lemma marshalRPCSession_roundtrip_witness :
  NoDup rpc_types
  /\ time.wf (Expiry sample.password_session)
  /\ marshalRPCSession sample.env_ok sample.password_session
     = Ok scenario.password_on_wire
  /\ unmarshalRPCType (rpc_SessionType scenario.password_on_wire)
     = Ok (Type' sample.password_session)
  /\ time.Unix (goint.to_int64
                  (rpc_ExpiryTimestampSeconds scenario.password_on_wire)) 0
     = Expiry sample.password_session.
Proof.
  assert (Hwf : time.wf (Expiry sample.password_session)) by by_computation.
  assert (Hm : marshalRPCSession sample.env_ok sample.password_session
               = Ok scenario.password_on_wire) by (vm_compute; reflexivity).
  split; [exact (proj2 sample_types_distinct) |].
  split; [exact Hwf |]. split; [exact Hm |].
  destruct (marshalRPCSession_roundtrip sample.env_ok sample.password_session
              scenario.password_on_wire (proj2 sample_types_distinct) Hwf Hm)
    as (_ & Hty & _ & _ & Hexp & _).
  split; [exact Hty |]. rewrite Hexp. reflexivity.
Defined.

(** X6 at the password session of the samples. *)
Lemma resumeSession_starts_password_session_witness :
  reaches_credentials sample.password_session (clock sample.env_ok 0)
  /\ Type' sample.password_session = TypeUIPassword
  /\ outcome_value (resumeSession sample.env_ok sample.password_session
                      (sample.world [sample.password_session])) = Some None
  /\ watchers (outcome_world
                 (resumeSession sample.env_ok sample.password_session
                    (sample.world [sample.password_session])))
     = [mkWatcher sample.password_session 1].
Proof.
  assert (Hreach : reaches_credentials sample.password_session
                     (clock sample.env_ok 0))
    by (split; [left; reflexivity | reflexivity]).
  split; [exact Hreach |]. split; [reflexivity |].
  rewrite (resumeSession_starts_password_session sample.env_ok
             sample.password_session (sample.world [sample.password_session])
             Hreach eq_refl).
  split; reflexivity.
Defined.

(** X7 at the admin session of the samples. *)
Lemma resumeSession_bakes_by_privilege_witness :
  NoDup session_types
  /\ reaches_credentials sample.admin_session (clock sample.env_ok 0)
  /\ (Type' sample.admin_session = TypeMacaroonAdmin
      \/ Type' sample.admin_session = TypeMacaroonReadonly)
  /\ superMacBaker sample.env_ok
       (record (EvBake 42 (GetAllPermissions sample.env_ok false))
          (ticked (sample.world [sample.admin_session])))
       42 (GetAllPermissions sample.env_ok false)
     = Ok "0201036c6e64"
  /\ calls (trace (outcome_world
                     (resumeSession sample.env_ok sample.admin_session
                        (sample.world [sample.admin_session]))))
     = [EvBake 42 [("info", "read"); ("info", "write")];
        EvStartSession sample.admin_session "Macaroon: 0201036c6e64"].
Proof.
  assert (Hreach : reaches_credentials sample.admin_session
                     (clock sample.env_ok 0))
    by (split; [left; reflexivity | reflexivity]).
  assert (Hty : Type' sample.admin_session = TypeMacaroonAdmin
                \/ Type' sample.admin_session = TypeMacaroonReadonly)
    by (left; reflexivity).
  split; [exact (proj1 sample_types_distinct) |].
  split; [exact Hreach |]. split; [exact Hty |]. split; [reflexivity |].
  destruct (resumeSession_bakes_by_privilege sample.env_ok sample.admin_session
              (sample.world [sample.admin_session]) "0201036c6e64"
              (proj1 sample_types_distinct) Hreach Hty eq_refl)
    as (_ & _ & Hrun).
  rewrite Hrun. reflexivity.
Defined.

(** X9 at a request for a custom macaroon session. *)
Lemma AddSession_rejects_other_types_witness :
  NoDup session_types
  /\ ~ In (req_SessionType (sample.request 2 (sample.t0 + 100))) lit_rpc_types
  /\ AddSession sample.env_ok (sample.request 2 (sample.t0 + 100))
       (sample.world [])
     = Done (Err "invalid session type, only UI password, admin and readonly macaroon types supported in LiT")
         (ticked (sample.world [])).
Proof.
  assert (Hty : ~ In (req_SessionType (sample.request 2 (sample.t0 + 100)))
                  lit_rpc_types).
  { simpl. intros [E | [E | [E | []]]]; discriminate E. }
  split; [exact (proj1 sample_types_distinct) |]. split; [exact Hty |].
  rewrite (proj1 (AddSession_rejects_other_types sample.env_ok
                    (sample.request 2 (sample.t0 + 100)) (sample.world [])
                    (proj1 sample_types_distinct) Hty)).
  reflexivity.
Defined.

(** X10 at the admin request. *)
Lemma AddSession_response_repeats_request_witness :
  NoDup session_types
  /\ goint.is_uint64 (req_ExpiryTimestampSeconds scenario.admin_request)
  /\ AddSession sample.env_ok scenario.admin_request (sample.world [])
     = Done (Ok scenario.admin_response) scenario.after_admin_request
  /\ rpc_ExpiryTimestampSeconds (resp_Session scenario.admin_response)
     = req_ExpiryTimestampSeconds scenario.admin_request
  /\ rpc_SessionType (resp_Session scenario.admin_response)
     = req_SessionType scenario.admin_request.
Proof.
  assert (He : goint.is_uint64
                 (req_ExpiryTimestampSeconds scenario.admin_request))
    by by_computation.
  assert (Hrun : AddSession sample.env_ok scenario.admin_request (sample.world [])
                 = Done (Ok scenario.admin_response) scenario.after_admin_request)
    by (vm_compute; reflexivity).
  split; [exact (proj1 sample_types_distinct) |].
  split; [exact He |]. split; [exact Hrun |].
  destruct (AddSession_response_repeats_request sample.env_ok
              scenario.admin_request (sample.world [])
              scenario.after_admin_request scenario.admin_response
              (proj1 sample_types_distinct) He Hrun)
    as (_ & Hty & _ & Hexp & _).
  split; [exact Hexp | exact Hty].
Defined.

(** X11 at the password request, with a tunnel that starts. *)
Lemma AddSession_password_session_witness :
  NoDup rpc_types
  /\ req_SessionType scenario.password_request = SessionType_TYPE_UI_PASSWORD
  /\ time.After (clock sample.env_ok 0)
       (time.Unix (goint.to_int64
                     (req_ExpiryTimestampSeconds scenario.password_request)) 0)
     = false
  /\ time.Before
       (time.Unix (goint.to_int64
                     (req_ExpiryTimestampSeconds scenario.password_request)) 0)
       (clock sample.env_ok 1) = false
  /\ session_entropy sample.env_ok (ticked (sample.world []))
     = Ok ([7; 7], 1000, 42)
  /\ db_fault sample.env_ok
       (record (EvStoreSession
                  (new_session scenario.password_request TypeUIPassword
                     [7; 7] 1000 42))
          (ticked (sample.world [])))
       (OpStoreSession
          (new_session scenario.password_request TypeUIPassword [7; 7] 1000 42))
     = None
  /\ length (watchers
               (outcome_world
                  (AddSession sample.env_ok scenario.password_request
                     (sample.world [])))) = 1%nat.
Proof.
  split; [exact (proj2 sample_types_distinct) |].
  split; [reflexivity |]. split; [reflexivity |]. split; [reflexivity |].
  split; [reflexivity |]. split; [reflexivity |].
  pose proof (AddSession_password_session sample.env_ok
                scenario.password_request (sample.world []) [7; 7] 1000 42
                (proj2 sample_types_distinct) eq_refl eq_refl eq_refl eq_refl
                eq_refl) as [_ Hrun].
  remember (AddSession sample.env_ok scenario.password_request
              (sample.world [])) as run eqn:Erun in *.
  vm_compute in Hrun. destruct Hrun as [r Hrun]. rewrite Hrun. reflexivity.
Defined.

(** X13 at a server that watches one session, with a scheduler that only
    takes the quit case. *)
Lemma stop_through_quit_mutates_nothing_witness :
  (forall w0 wt, selected sample.env_ok w0 wt = OnQuit)
  /\ stopOnce_done sample.watching = false
  /\ quit_closed sample.watching = false
  /\ store (outcome_world (stop sample.env_ok sample.watching))
     = store sample.watching
  /\ watchers (outcome_world (stop sample.env_ok sample.watching)) = [].
Proof.
  assert (Hsel : forall w0 wt, selected sample.env_ok w0 wt = OnQuit)
    by (intros w0 wt; reflexivity).
  split; [exact Hsel |]. split; [reflexivity |]. split; [reflexivity |].
  destruct (stop_through_quit_mutates_nothing sample.env_ok sample.watching
              Hsel eq_refl eq_refl) as (w' & Hrun & Hst & _ & Hws & _).
  rewrite Hrun. simpl. split; [exact Hst | exact Hws].
Defined.

(** X14 at the admin request. *)
Lemma RevokeSession_after_AddSession_witness :
  (forall k, ParsePubKey sample.env_ok (SerializeCompressed sample.env_ok k) = Ok k)
  /\ (forall w0 k, db_fault sample.env_ok w0 (OpRevokeSession k) = None)
  /\ AddSession sample.env_ok scenario.admin_request (sample.world [])
     = Done (Ok scenario.admin_response) scenario.after_admin_request
  /\ exists key w2,
       RevokeSession sample.env_ok
         (mkRevokeSessionRequest
            (rpc_LocalPublicKey (resp_Session scenario.admin_response)))
         scenario.after_admin_request
       = Done (Ok mkRevokeSessionResponse) w2
       /\ State <$> store w2 !! key = Some StateRevoked.
Proof.
  assert (Hparse : forall k, ParsePubKey sample.env_ok
                               (SerializeCompressed sample.env_ok k) = Ok k)
    by (intros k; reflexivity).
  assert (Hdb : forall w0 k, db_fault sample.env_ok w0 (OpRevokeSession k) = None)
    by (intros w0 k; reflexivity).
  assert (Hrun : AddSession sample.env_ok scenario.admin_request (sample.world [])
                 = Done (Ok scenario.admin_response) scenario.after_admin_request)
    by (vm_compute; reflexivity).
  split; [exact Hparse |]. split; [exact Hdb |]. split; [exact Hrun |].
  destruct (RevokeSession_after_AddSession sample.env_ok scenario.admin_request
              (sample.world []) scenario.after_admin_request
              scenario.admin_response Hparse Hdb Hrun)
    as (key & w2 & evs & _ & Hrev & Hst & _).
  exists key, w2. split; [exact Hrev | exact Hst].
Defined.

(** X15 along a life of a server. *)
Lemma server_never_panics_witness :
  quit_closed (sample.world []) = stopOnce_done (sample.world [])
  /\ exists w',
       perform_all sample.env_ok scenario.life (sample.world []) = Done tt w'
       /\ quit_closed w' = true
       /\ stopOnce_done w' = true.
Proof.
  split; [reflexivity |].
  destruct (server_never_panics sample.env_ok scenario.life (sample.world [])
              eq_refl) as (w' & Hrun & Hinv & Hstop).
  exists w'. split; [exact Hrun |].
  assert (Hdone : stopOnce_done w' = true).
  { apply Hstop. right. simpl. auto. }
  split; [rewrite Hinv; exact Hdone | exact Hdone].
Defined.

(** X16 at the admin request, listed on the world it left. *)
Lemma ListSessions_shows_added_session_witness :
  AddSession sample.env_ok scenario.admin_request (sample.world [])
  = Done (Ok scenario.admin_response) scenario.after_admin_request
  /\ ListSessions sample.env_ok scenario.never_fails scenario.after_admin_request
     = Done (Ok (mkListSessionsResponse
                   [Some (resp_Session scenario.admin_response)]))
         scenario.after_admin_request
  /\ exists entry,
       In (Some entry) [Some (resp_Session scenario.admin_response)]
       /\ rpc_LocalPublicKey entry
          = rpc_LocalPublicKey (resp_Session scenario.admin_response).
Proof.
  assert (Hrun : AddSession sample.env_ok scenario.admin_request (sample.world [])
                 = Done (Ok scenario.admin_response) scenario.after_admin_request)
    by (vm_compute; reflexivity).
  assert (Hlist : ListSessions sample.env_ok scenario.never_fails
                    scenario.after_admin_request
                  = Done (Ok (mkListSessionsResponse
                                [Some (resp_Session scenario.admin_response)]))
                      scenario.after_admin_request)
    by (vm_compute; reflexivity).
  split; [exact Hrun |]. split; [exact Hlist |].
  destruct (ListSessions_shows_added_session sample.env_ok scenario.never_fails
              scenario.admin_request (sample.world [])
              scenario.after_admin_request scenario.after_admin_request
              scenario.admin_response _ Hrun Hlist)
    as (entry & Hin & Hkey & _).
  exists entry. split; [exact Hin | exact Hkey].
Defined.

